(** * Dashboard.py: the analytics behind Sarah's 1:1 dashboard

    A shallow embedding of the computations of [Dashboard.py]: the due-date
    status of [load_data], the sidebar filter [df_filt], the KPI cards, the
    insight lines of [build_insights], the [next7] expander and the
    conversation explorer's [sel_row].

    Conventions.
    - A pandas [Timestamp] is its number of nanoseconds since the epoch, a [Z];
      [NaT]/[NaN] is [None].
    - A Python [str] is the byte string of its UTF-8 encoding; comparing the
      encodings byte by byte orders strings as Python orders them by code
      point.
    - A [DataFrame] is the list of its rows, a [Series] the list of its
      values, a boolean mask a [list bool].
    - [person], [feature_category] and [topic] may be missing: the sheet's
      text columns reach the script as they are, an empty cell as [NaN]
      (the script itself calls [dropna] and tests [value_counts().empty]).
      A missing [sentiment] behaves like any string other than the three
      symbols in every place the script reads it, so that column is kept as
      plain strings.
    - Counts stay far below 2^52 / 100, where the float quotient that
      [round] receives rounds exactly as the rational it stands for;
      [round] answers an [int], which the f-strings print without a
      fractional part.
    - [value_counts] and [sort_values] are taken to keep entries with equal
      keys in the order they had, as a stable sort does. *)

From Stdlib Require Import ZArith List Bool String Ascii Lia.
From Stdlib Require Import Permutation Sorted DecimalString.
From Stdlib Require Import OrdersEx RelationClasses.
Import ListNotations.
Local Open Scope Z_scope.

(** ** Exceptions *)

Inductive exn : Type := ValueError | IndexError.

Inductive result (A : Type) : Type :=
| Ok (a : A)
| Raise (e : exn).
Arguments Ok {A} a.
Arguments Raise {A} e.

Definition bind {A B : Type} (m : result A) (k : A -> result B) : result B :=
  match m with
  | Ok a => k a
  | Raise e => Raise e
  end.

Notation "x <- m ;; k" := (bind m (fun x => k))
  (at level 61, m at next level, right associativity).

(** A [for] loop whose body may raise, threading the accumulator. *)
Fixpoint for_each {A S : Type} (xs : list A) (body : S -> A -> result S) (s : S)
  : result S :=
  match xs with
  | [] => Ok s
  | x :: rest => s' <- body s x ;; for_each rest body s'
  end.

(** ** Generic stable insertion sort *)

Section StableSort.
Context {A : Type} (le : A -> A -> bool).

(** [x] comes from before every element of [l] in the input, so it is
    placed in front of the first element it does not exceed. *)
Fixpoint insert_by (x : A) (l : list A) : list A :=
  match l with
  | [] => [x]
  | y :: t => if le x y then x :: y :: t else y :: insert_by x t
  end.

Fixpoint sort_by (l : list A) : list A :=
  match l with
  | [] => []
  | x :: t => insert_by x (sort_by t)
  end.
End StableSort.

(** ** The Python builtins the script uses *)

Module Py.

Definition len {A : Type} (l : list A) : Z := Z.of_nat (List.length l).

(** [round(num / den)] for [den > 0]: nearest integer, halves to even. *)
Definition round_div (num den : Z) : Z :=
  let q := num / den in
  let r := num mod den in
  if 2 * r <? den then q
  else if den <? 2 * r then q + 1
  else if Z.even q then q else q + 1.

(** [str(n)] of an int, as an f-string renders it. *)
Definition str (n : Z) : string := NilZero.string_of_int (Z.to_int n).

(** [sep.join(parts)] *)
Fixpoint join (sep : string) (parts : list string) : string :=
  match parts with
  | [] => EmptyString
  | [s] => s
  | s :: rest => (s ++ sep ++ join sep rest)%string
  end.

(** [sorted(xs)] on strings. *)
Definition sorted (xs : list string) : list string := sort_by String.leb xs.

Definition min (a b : Z) : Z := if b <? a then b else a.

End Py.

(** ** The pandas operations the script uses *)

Module pd.

Definition Timestamp : Type := Z.

Definition ns_per_day : Z := 86400000000000.

Definition isna {A : Type} (v : option A) : bool :=
  match v with None => true | Some _ => false end.

Definition notna {A : Type} (v : option A) : bool := negb (isna v).

(** [Timedelta.days]: whole days, rounded towards minus infinity. *)
Definition days (delta : Z) : Z := delta / ns_per_day.

(** Civil date of a day number (days since 1970-01-01), proleptic
    Gregorian calendar. *)
Definition civil_from_days (d : Z) : Z * Z * Z :=
  let z := d + 719468 in
  let era := z / 146097 in
  let doe := z - era * 146097 in
  let yoe := (doe - doe / 1460 + doe / 36524 - doe / 146096) / 365 in
  let doy := doe - (365 * yoe + yoe / 4 - yoe / 100) in
  let mp := (5 * doy + 2) / 153 in
  let dd := doy - (153 * mp + 2) / 5 + 1 in
  let mm := if mp <? 10 then mp + 3 else mp - 9 in
  let yy := yoe + era * 400 + (if mm <=? 2 then 1 else 0) in
  (yy, mm, dd).

Fixpoint zeros (n : nat) : string :=
  match n with O => EmptyString | S k => String "0"%char (zeros k) end.

(** Decimal rendering left-padded with zeros to [width] digits. *)
Definition pad (width : nat) (n : Z) : string :=
  let s := Py.str n in
  (zeros (width - String.length s) ++ s)%string.

(** [str(ts.date())]: ISO [YYYY-MM-DD]; [NaT.date()] is [NaT]. *)
Definition date_str (ts : option Timestamp) : string :=
  match ts with
  | None => "NaT"%string
  | Some t =>
      let '(yy, mm, dd) := civil_from_days (t / ns_per_day) in
      (pad 4 yy ++ "-" ++ pad 2 mm ++ "-" ++ pad 2 dd)%string
  end.

(** How an f-string renders an object cell that may be [NaN]. *)
Definition cell_str (v : option string) : string :=
  match v with None => "nan"%string | Some s => s end.

Definition empty {A : Type} (df : list A) : bool :=
  match df with [] => true | _ :: _ => false end.

(** [df[column]] *)
Definition col {R A : Type} (f : R -> A) (df : list R) : list A := map f df.

(** [series == v], elementwise. *)
Definition eq_mask {A : Type} (eqb : A -> A -> bool) (s : list A) (v : A)
  : list bool := map (fun x => eqb x v) s.

(** [series != v], elementwise. *)
Definition ne_mask {A : Type} (eqb : A -> A -> bool) (s : list A) (v : A)
  : list bool := map (fun x => negb (eqb x v)) s.

(** [series.isin(values)]; a missing value is found among values that hold
    a missing one. *)
Definition isin {A : Type} (eqb : A -> A -> bool) (s : list A) (values : list A)
  : list bool := map (fun x => existsb (eqb x) values) s.

(** [m1 & m2] on aligned masks. *)
Fixpoint mask_and (m1 m2 : list bool) : list bool :=
  match m1, m2 with
  | b1 :: t1, b2 :: t2 => (b1 && b2) :: mask_and t1 t2
  | _, _ => []
  end.

(** [m1 | m2] on aligned masks. *)
Fixpoint mask_or (m1 m2 : list bool) : list bool :=
  match m1, m2 with
  | b1 :: t1, b2 :: t2 => (b1 || b2) :: mask_or t1 t2
  | _, _ => []
  end.

(** [mask.sum()] *)
Fixpoint sum (mask : list bool) : Z :=
  match mask with
  | [] => 0
  | b :: t => (if b then 1 else 0) + sum t
  end.

(** [df[mask]]: the rows at which the mask holds, in order. *)
Fixpoint loc {R : Type} (df : list R) (mask : list bool) : list R :=
  match df, mask with
  | r :: df', b :: mask' => if b then r :: loc df' mask' else loc df' mask'
  | _, _ => []
  end.

(** [series.dropna()] *)
Fixpoint dropna {A : Type} (s : list (option A)) : list A :=
  match s with
  | [] => []
  | None :: t => dropna t
  | Some a :: t => a :: dropna t
  end.

(** [series.unique()]: the distinct values in order of first appearance. *)
Fixpoint unique {A : Type} (eqb : A -> A -> bool) (s : list A) : list A :=
  match s with
  | [] => []
  | x :: t => x :: filter (fun y => negb (eqb y x)) (unique eqb t)
  end.

(** Number of occurrences of [k] in a string series. *)
Definition occurrences (k : string) (s : list string) : Z :=
  sum (eq_mask String.eqb s k).

(** [series.value_counts()]: missing values dropped, one entry per distinct
    value with its number of occurrences, most frequent first; entries
    with equal counts keep their order of first appearance. *)
Definition value_counts (s : list (option string)) : list (string * Z) :=
  let vals := dropna s in
  sort_by (fun a b => snd b <=? snd a)
          (map (fun k => (k, occurrences k vals)) (unique String.eqb vals)).

(** Scan for the first entry that holds the maximum: [best] is replaced
    only by a strictly larger entry. *)
Fixpoint first_max_from (best : string * Z) (rest : list (string * Z))
  : string * Z :=
  match rest with
  | [] => best
  | kv :: t =>
      if snd best <? snd kv then first_max_from kv t else first_max_from best t
  end.

(** [counts.idxmax()]: the label of the first entry holding the maximum;
    [ValueError] on an empty series. *)
Definition idxmax (counts : list (string * Z)) : result string :=
  match counts with
  | [] => Raise ValueError
  | kv :: t => Ok (fst (first_max_from kv t))
  end.

(** [counts.max()].  On an empty series pandas answers [NaN]; the script
    guards every call with [.empty], and the model answers 0 there. *)
Definition max (counts : list (string * Z)) : Z :=
  match counts with
  | [] => 0
  | kv :: t => fold_left Z.max (map snd t) (snd kv)
  end.

(** Sort key of a datetime column: missing values go last. *)
Definition key_le (a b : option Timestamp) : bool :=
  match a, b with
  | Some x, Some y => x <=? y
  | _, None => true
  | None, Some _ => false
  end.

(** [df.sort_values(column)] on a datetime column, ascending, rows with
    equal keys kept in their order. *)
Definition sort_values {R : Type} (key : R -> option Timestamp) (df : list R)
  : list R := sort_by (fun a b => key_le (key a) (key b)) df.

(** [df.head(n)] *)
Definition head {R : Type} (n : nat) (df : list R) : list R := firstn n df.

(** [df.iloc[0]] *)
Definition iloc0 {R : Type} (df : list R) : result R :=
  match df with
  | [] => Raise IndexError
  | r :: _ => Ok r
  end.

End pd.

(** ** The data *)

(** The four values [status] writes into the [status] column:
    ["No Due"], ["Overdue"], ["Due Soon"], ["On Track"]. *)
Inductive Status : Type := NoDue | Overdue | DueSoon | OnTrack.

Definition Status_str (s : Status) : string :=
  match s with
  | NoDue => "No Due"
  | Overdue => "Overdue"
  | DueSoon => "Due Soon"
  | OnTrack => "On Track"
  end%string.

Definition Status_eqb (a b : Status) : bool :=
  match a, b with
  | NoDue, NoDue | Overdue, Overdue | DueSoon, DueSoon | OnTrack, OnTrack => true
  | _, _ => false
  end.

(** A row of the sheet once [date] and [due_date] went through
    [pd.to_datetime(errors='coerce')]. *)
Record RawRow : Type := mkRawRow {
  person : option string;
  feature_category : option string;
  sentiment : string;
  topic : option string;
  action : string;
  date : option pd.Timestamp;
  due_date : option pd.Timestamp;
  raw_text : string
}.

(** A row of the frame [load_data] returns: the sheet's columns and the
    derived [status] column. *)
Record Row : Type := mkRow {
  raw :> RawRow;
  status_col : Status
}.

(** What the script reads from outside: the system clock and the sheet. *)
Record World : Type := mkWorld {
  clock : pd.Timestamp;
  Raw_text_xlsx : list RawRow
}.

Definition opt_eqb (a b : option string) : bool :=
  match a, b with
  | Some x, Some y => String.eqb x y
  | None, None => true
  | _, _ => false
  end.

(** [df[name]] for a column of the sheet, and [df['status']]. *)
Definition col {A : Type} (f : RawRow -> A) (df : list Row) : list A :=
  pd.col (fun r : Row => f r) df.

Definition col_status (df : list Row) : list Status := pd.col status_col df.

(** ** Load data *)

(** [status(row)], with the [today] it closes over. *)
Definition status (today : pd.Timestamp) (row : RawRow) : Status :=
  match due_date row with
  | None => NoDue
  | Some d =>
      if d <? today then Overdue
      else if pd.days (d - today) <=? 7 then DueSoon
      else OnTrack
  end.

(** [load_data()]: takes no argument; [today] is [pd.Timestamp.today()]. *)
Definition load_data (w : World) : list Row :=
  let df := Raw_text_xlsx w in
  let today := clock w in
  map (fun row => mkRow row (status today row)) df.

(** ** Sidebar filters *)

Definition person_default (df : list Row) : list (option string) :=
  pd.unique opt_eqb (col person df).

Definition feature_default (df : list Row) : list (option string) :=
  pd.unique opt_eqb (col feature_category df).

Definition sent_default (df : list Row) : list string :=
  pd.unique String.eqb (col sentiment df).

Definition df_filt (df : list Row)
    (person_sel feature_sel : list (option string)) (sent_sel : list string)
  : list Row :=
  pd.loc df
    (pd.mask_and
       (pd.mask_and (pd.isin opt_eqb (col person df) person_sel)
                    (pd.isin opt_eqb (col feature_category df) feature_sel))
       (pd.isin String.eqb (col sentiment df) sent_sel)).

(** ** KPI cards *)

Record KPI : Type := mkKPI {
  total_topics : Z;
  pos : Z;
  mix : Z;
  neg : Z;
  due_soon : Z;
  overdue : Z
}.

Definition kpi_cards (df_filt : list Row) : KPI :=
  {| total_topics := Py.len df_filt;
     pos := pd.sum (pd.eq_mask String.eqb (col sentiment df_filt) "+"%string);
     mix := pd.sum (pd.eq_mask String.eqb (col sentiment df_filt) "±"%string);
     neg := pd.sum (pd.eq_mask String.eqb (col sentiment df_filt) "-"%string);
     due_soon := pd.sum (pd.eq_mask Status_eqb (col_status df_filt) DueSoon);
     overdue := pd.sum (pd.eq_mask Status_eqb (col_status df_filt) Overdue) |}.

(** ** Insights *)

(** [_safe_pct(num, den)]; [den] is always a [len], hence never negative. *)
Definition _safe_pct (num den : Z) : Z :=
  if den =? 0 then 0 else Py.round_div (100 * num) den.

Definition friction_categories : list string :=
  ["Risk / Incident Management"; "Process / Quality Metrics";
   "Projects / Execution"]%string.

(** 1) Overall focus *)
Definition overall_focus (df : list Row) (insights : list string)
  : result (list string) :=
  let cat_counts := pd.value_counts (col feature_category df) in
  if negb (pd.empty cat_counts) then
    top_cat <- pd.idxmax cat_counts ;;
    let top_cat_pct := _safe_pct (pd.max cat_counts) (Py.len df) in
    Ok (insights ++
        [("Focus is on **" ++ top_cat ++ "** (" ++ Py.str top_cat_pct
          ++ "% of topics).")%string])
  else Ok insights.

(** 2) Per-person snapshot: the body of the loop, for one person [p]. *)
Definition person_snapshot (df : list Row) (insights : list string) (p : string)
  : result (list string) :=
  let sub := pd.loc df (pd.eq_mask opt_eqb (col person df) (Some p)) in
  if pd.empty sub then Ok insights
  else
    let p_cat_counts := pd.value_counts (col feature_category sub) in
    p_top_cat <- (if negb (pd.empty p_cat_counts) then pd.idxmax p_cat_counts
                  else Ok "N/A"%string) ;;
    let p_top_pct :=
      _safe_pct (if negb (pd.empty p_cat_counts) then pd.max p_cat_counts else 0)
                (Py.len sub) in
    let p_pos := pd.sum (pd.eq_mask String.eqb (col sentiment sub) "+"%string) in
    let p_mix := pd.sum (pd.eq_mask String.eqb (col sentiment sub) "±"%string) in
    let p_neg := pd.sum (pd.eq_mask String.eqb (col sentiment sub) "-"%string) in
    let pos_rate := _safe_pct p_pos (Py.len sub) in
    let p_due := pd.sum (pd.isin Status_eqb (col_status sub) [DueSoon; Overdue]) in
    Ok (insights ++
        [("**" ++ p ++ "**: mainly **" ++ p_top_cat ++ "** (" ++ Py.str p_top_pct
          ++ "%). Sentiment → +:" ++ Py.str p_pos ++ ", ±:" ++ Py.str p_mix
          ++ ", -:" ++ Py.str p_neg ++ " (**" ++ Py.str pos_rate
          ++ "% positive**). Urgent items: **" ++ Py.str p_due ++ "**.")%string]).

Definition per_person (df : list Row) (insights : list string)
  : result (list string) :=
  for_each (Py.sorted (pd.unique String.eqb (pd.dropna (col person df))))
           (person_snapshot df) insights.

(** 3) Risk & urgency signal *)
Definition urgency_signal (df : list Row) (insights : list string)
  : list string :=
  let due := pd.loc df (pd.isin Status_eqb (col_status df) [DueSoon; Overdue]) in
  if negb (pd.empty due) then
    let overdue_cnt := pd.sum (pd.eq_mask Status_eqb (col_status due) Overdue) in
    let insights :=
      insights ++
      [("Urgency: " ++ Py.str (Py.len due) ++ " items require attention (**"
        ++ Py.str overdue_cnt ++ " overdue**).")%string] in
    let up_next := pd.head 3 (pd.sort_values (fun r : Row => due_date r) due) in
    let labels :=
      map (fun r : Row =>
             (pd.date_str (due_date r) ++ " – " ++ pd.cell_str (person r)
              ++ ": *" ++ pd.cell_str (topic r) ++ "*")%string) up_next in
    insights ++ [("Next deadlines → " ++ Py.join " | " labels)%string]
  else insights.

(** 4) Wins vs. friction *)
Definition wins_vs_friction (df : list Row) (insights : list string)
  : result (list string) :=
  let wins := pd.loc df (pd.eq_mask String.eqb (col sentiment df) "+"%string) in
  let frictions :=
    pd.loc df
      (pd.mask_and (pd.ne_mask String.eqb (col sentiment df) "+"%string)
                   (pd.isin opt_eqb (col feature_category df)
                            (map Some friction_categories))) in
  insights <-
    (if negb (pd.empty wins) then
       top_win_cat <- pd.idxmax (pd.value_counts (col feature_category wins)) ;;
       Ok (insights ++
           [("Wins cluster in **" ++ top_win_cat ++ "** (e.g., "
             ++ Py.str (Py.min 3 (Py.len wins)) ++ " recent positives).")%string])
     else Ok insights) ;;
  if negb (pd.empty frictions) then
    top_frict_cat <- pd.idxmax (pd.value_counts (col feature_category frictions)) ;;
    Ok (insights ++
        [("Friction hotspots: **" ++ top_frict_cat
          ++ "** (prioritize coaching/unblocking).")%string])
  else Ok insights.

Definition build_insights (df : list Row) : result (list string) :=
  let insights := [] in
  if pd.empty df then Ok ["No data under current filters."%string]
  else
    insights <- overall_focus df insights ;;
    insights <- per_person df insights ;;
    let insights := urgency_signal df insights in
    wins_vs_friction df insights.

(** ** Detail blocks *)

(** The "Upcoming deadlines" expander; it reads the clock again. *)
Definition next7 (w : World) (df_filt : list Row) : list Row :=
  let today := clock w in
  pd.sort_values (fun r : Row => due_date r)
    (pd.loc df_filt
       (pd.mask_and
          (map pd.notna (col due_date df_filt))
          (map (fun d : option pd.Timestamp =>
                  match d with
                  | None => false
                  | Some t => (0 <=? pd.days (t - today)) && (pd.days (t - today) <=? 7)
                  end)
               (col due_date df_filt)))).

(** ** Conversation explorer *)

Definition sel_row (df_filt : list Row) (sel_topic : string) : result Row :=
  pd.iloc0 (pd.loc df_filt (pd.eq_mask opt_eqb (col topic df_filt) (Some sel_topic))).

(** The whole page for one run: what is shown depends on the world and on
    the widget selections only. *)
Definition page_insights (w : World)
    (person_sel feature_sel : list (option string)) (sent_sel : list string)
  : result (list string) :=
  let df := load_data w in
  build_insights (df_filt df person_sel feature_sel sent_sel).

(** ** The rules as the specification words them *)

(** A span of [delta] nanoseconds counts at least [lo] and at most [hi]
    whole days of 86 400 000 000 000 nanoseconds each. *)
Definition whole_days_in (lo hi : Z) (delta : Z) : bool :=
  (lo * 86400000000000 <=? delta) && (delta <? (hi + 1) * 86400000000000).

(** The four-branch status rule of the specification: missing, before the
    instant, between 0 and 7 whole days after it, later. *)
Definition status_rule (due : option pd.Timestamp) (now : pd.Timestamp) : Status :=
  match due with
  | None => NoDue
  | Some d =>
      if d <? now then Overdue
      else if whole_days_in 0 7 (d - now) then DueSoon
      else OnTrack
  end.

(** ** Vocabulary of the statements *)

(** Number of rows of a view that satisfy [p]. *)
Definition count_where {R : Type} (p : R -> bool) (view : list R) : Z :=
  Z.of_nat (List.length (filter p view)).

Definition has_sentiment (s : string) (r : Row) : bool :=
  String.eqb (sentiment r) s.

Definition has_status (s : Status) (r : Row) : bool :=
  Status_eqb (status_col r) s.

(** Status in {DueSoon, Overdue}. *)
Definition is_urgent (r : Row) : bool :=
  has_status DueSoon r || has_status Overdue r.

Definition has_person (p : string) (r : Row) : bool :=
  opt_eqb (person r) (Some p).

Definition has_topic (key : string) (r : Row) : bool :=
  opt_eqb (topic r) (Some key).

(** Membership of a row in a filter selection. *)
Definition selected (persons categories : list (option string))
    (sentiments : list string) (r : Row) : bool :=
  existsb (opt_eqb (person r)) persons
  && existsb (opt_eqb (feature_category r)) categories
  && existsb (String.eqb (sentiment r)) sentiments.

(** Sentiment other than Positive and category in the fixed friction set. *)
Definition is_friction (r : Row) : bool :=
  negb (has_sentiment "+" r)
  && existsb (opt_eqb (feature_category r)) (map Some friction_categories).

(** The categories of a view, in view order, missing ones left out. *)
Definition categories (view : list Row) : list string :=
  pd.dropna (col feature_category view).

Definition occ (cats : list string) (c : string) : nat :=
  count_occ string_dec cats c.

(** [top] has the highest number of occurrences in [cats], and among the
    values tied for that maximum it is the one met first. *)
Definition is_dominant (cats : list string) (top : string) : Prop :=
  (forall c, (occ cats c <= occ cats top)%nat) /\
  exists before after,
    cats = (before ++ top :: after)%list /\
    forall c, In c before -> (occ cats c < occ cats top)%nat.

(** [p] is the integer nearest to [num / den], the even one of the two when
    [num / den] lies half-way. *)
Definition is_rounded (num den p : Z) : Prop :=
  2 * Z.abs (num - p * den) <= den /\
  (2 * Z.abs (num - p * den) = den -> Z.even p = true).

(** [first] is the first row of [view] that satisfies [p]. *)
Definition is_first_match (p : Row -> bool) (view : list Row) (first : Row) : Prop :=
  exists before after,
    view = (before ++ first :: after)%list /\
    p first = true /\
    forall r, In r before -> p r = false.

(** [out] is [l] sorted ascending by due date, rows with equal due dates in
    the order they have in [l]. *)
Definition is_stable_sort_by_due (l out : list Row) : Prop :=
  Permutation l out /\
  Sorted (fun a b : Row => pd.key_le (due_date a) (due_date b) = true) out /\
  forall d, filter (fun r : Row => pd.key_le (due_date r) d && pd.key_le d (due_date r)) out
            = filter (fun r : Row => pd.key_le (due_date r) d && pd.key_le d (due_date r)) l.

(** ** The insight lines, as the script spells them *)

Definition focus_line (category : string) (pct : Z) : string :=
  ("Focus is on **" ++ category ++ "** (" ++ Py.str pct ++ "% of topics).")%string.

Definition snapshot_line (p category : string) (pct n_pos n_mix n_neg rate urgent : Z)
  : string :=
  ("**" ++ p ++ "**: mainly **" ++ category ++ "** (" ++ Py.str pct
   ++ "%). Sentiment → +:" ++ Py.str n_pos ++ ", ±:" ++ Py.str n_mix
   ++ ", -:" ++ Py.str n_neg ++ " (**" ++ Py.str rate
   ++ "% positive**). Urgent items: **" ++ Py.str urgent ++ "**.")%string.

Definition urgency_line (n_due n_overdue : Z) : string :=
  ("Urgency: " ++ Py.str n_due ++ " items require attention (**"
   ++ Py.str n_overdue ++ " overdue**).")%string.

Definition deadline_label (r : Row) : string :=
  (pd.date_str (due_date r) ++ " – " ++ pd.cell_str (person r)
   ++ ": *" ++ pd.cell_str (topic r) ++ "*")%string.

Definition deadlines_line (up_next : list Row) : string :=
  ("Next deadlines → " ++ Py.join " | " (map deadline_label up_next))%string.

Definition wins_line (category : string) (n : Z) : string :=
  ("Wins cluster in **" ++ category ++ "** (e.g., " ++ Py.str n
   ++ " recent positives).")%string.

Definition friction_line (category : string) : string :=
  ("Friction hotspots: **" ++ category
   ++ "** (prioritize coaching/unblocking).")%string.

(** ** The insight lines, as the specification spells them *)

Module Claimed.

Definition focus_line (category : string) (pct : Z) : string :=
  ("Focus is on " ++ category ++ " (" ++ Py.str pct ++ "% of topics).")%string.

Definition snapshot_line (p category : string)
    (pct n_pos n_mix n_neg rate urgent : Z) : string :=
  (p ++ ": mainly " ++ category ++ " (" ++ Py.str pct
   ++ "%). Sentiment → +:" ++ Py.str n_pos ++ ", ±:" ++ Py.str n_mix
   ++ ", -:" ++ Py.str n_neg ++ " (" ++ Py.str rate
   ++ "% positive). Urgent items: " ++ Py.str urgent ++ ".")%string.

Definition urgency_line (n_due n_overdue : Z) : string :=
  ("Urgency: " ++ Py.str n_due ++ " items require attention ("
   ++ Py.str n_overdue ++ " overdue).")%string.

Definition deadline_label (r : Row) : string :=
  (pd.date_str (due_date r) ++ "–" ++ pd.cell_str (person r)
   ++ ": " ++ pd.cell_str (topic r))%string.

Definition deadlines_line (up_next : list Row) : string :=
  Py.join " | " (map deadline_label up_next).

Definition wins_line (category : string) (n : Z) : string :=
  ("Wins cluster in " ++ category ++ " (e.g., " ++ Py.str n
   ++ " recent positives).")%string.

Definition friction_line (category : string) : string :=
  ("Friction hotspots: " ++ category
   ++ " (prioritize coaching/unblocking).")%string.

Definition friction_categories : list string :=
  ["Risk/Incident Management"; "Process/Quality Metrics";
   "Projects/Execution"]%string.

Definition is_friction (r : Row) : bool :=
  negb (has_sentiment "+" r)
  && existsb (opt_eqb (feature_category r)) (map Some friction_categories).

End Claimed.

(** What the snapshot line of person [p] reports about the view. *)
Definition is_snapshot_of (view : list Row) (p : string) (line : string) : Prop :=
  exists category n,
    ((categories (filter (has_person p) view) = []
      /\ category = "N/A"%string /\ n = 0)
     \/ (is_dominant (categories (filter (has_person p) view)) category
         /\ n = Z.of_nat (occ (categories (filter (has_person p) view)) category)))
    /\ line =
       snapshot_line p category
         (_safe_pct n (Py.len (filter (has_person p) view)))
         (count_where (has_sentiment "+") (filter (has_person p) view))
         (count_where (has_sentiment "±") (filter (has_person p) view))
         (count_where (has_sentiment "-") (filter (has_person p) view))
         (_safe_pct (count_where (has_sentiment "+") (filter (has_person p) view))
                    (Py.len (filter (has_person p) view)))
         (count_where is_urgent (filter (has_person p) view)).

(** What block 4 appends for the wins and for the friction rows. *)
Definition wins_part (view : list Row) (lines : list string) : Prop :=
  (filter (has_sentiment "+") view = [] /\ lines = [])
  \/ (filter (has_sentiment "+") view <> []
      /\ exists top,
          is_dominant (categories (filter (has_sentiment "+") view)) top
          /\ lines = [wins_line top (Z.min 3 (Py.len (filter (has_sentiment "+") view)))]).

Definition friction_part (view : list Row) (lines : list string) : Prop :=
  (filter is_friction view = [] /\ lines = [])
  \/ (filter is_friction view <> []
      /\ exists top,
          is_dominant (categories (filter is_friction view)) top
          /\ lines = [friction_line top]).

(** The persons the snapshot loop visits. *)
Definition snapshot_persons (view : list Row) : list string :=
  Py.sorted (pd.unique String.eqb (pd.dropna (col person view))).

(** ** Sample data *)

Module Sample.
Local Open Scope string_scope.

Definition day : Z := pd.ns_per_day.

(** 2024-10-04, a little after midnight. *)
Definition now : pd.Timestamp := 20000 * day + 5000.

(** The three records of the specification's example. *)
Definition alice_soon : RawRow :=
  mkRawRow (Some "Alice") (Some "Process/Quality Metrics") "+" (Some "Dashboards")
           "" None (Some (now + 3 * day)) ""%string.

Definition alice_late : RawRow :=
  mkRawRow (Some "Alice") (Some "Process/Quality Metrics") "-" (Some "Audit")
           "" None (Some (now - 2 * day)) ""%string.

Definition bob : RawRow :=
  mkRawRow (Some "Bob") (Some "Projects/Execution") "±" (Some "Roadmap")
           "" None None ""%string.

Definition world : World := mkWorld now [alice_soon; alice_late; bob].

Definition view : list Row := load_data world.


(** A row without a category, and one whose category is in the script's
    friction list. *)
Definition uncategorised : Row :=
  mkRow (mkRawRow (Some "Carol") None "-" (Some "Hiring") "" None None ""%string) NoDue.

Definition incident : Row :=
  mkRow (mkRawRow (Some "Dan") (Some "Risk / Incident Management") "-" (Some "Outage")
                  "" None None ""%string) NoDue.

Definition win_uncategorised : Row :=
  mkRow (mkRawRow (Some "Eve") None "+" (Some "Launch") "" None None ""%string) NoDue.

(** A view with a categorised win and a friction row. *)
Definition win_and_incident : list Row :=
  [incident; mkRow alice_soon DueSoon].

(** What the script prints for [view]. *)
Definition lines : list string :=
  ["Focus is on **Process/Quality Metrics** (67% of topics).";
   "**Alice**: mainly **Process/Quality Metrics** (100%). Sentiment → +:1, ±:0, -:1 (**50% positive**). Urgent items: **2**.";
   "**Bob**: mainly **Projects/Execution** (100%). Sentiment → +:0, ±:1, -:0 (**0% positive**). Urgent items: **0**.";
   "Urgency: 2 items require attention (**1 overdue**).";
   "Next deadlines → 2024-10-02 – Alice: *Audit* | 2024-10-07 – Alice: *Dashboards*";
   "Wins cluster in **Process/Quality Metrics** (e.g., 1 recent positives)."].

(** The two rows of [view] with a deadline, earliest first. *)
Definition up_next : list Row :=
  [mkRow alice_late Overdue; mkRow alice_soon DueSoon].

End Sample.

(** The percentage block 1 prints for [top]. *)
Definition focus_pct (view : list Row) (top : string) : Z :=
  _safe_pct (Z.of_nat (occ (categories view) top)) (Py.len view).

(** The wins of a view, if any, carry at least one category. *)
Definition wins_categorised (view : list Row) : Prop :=
  filter (has_sentiment "+") view = []
  \/ categories (filter (has_sentiment "+") view) <> [].

(** ** The rest of the page *)

(** What a block of the page shows: a message or a table. *)
Inductive Shown (A : Type) : Type :=
| Message (text : string)
| Table (rows : list A).
Arguments Message {A} text.
Arguments Table {A} rows.

(** The "Upcoming deadlines" expander. *)
Definition upcoming_block (w : World) (df_filt : list Row)
  : Shown (option string * option string * string * option pd.Timestamp * Status) :=
  let next7 := next7 w df_filt in
  if pd.empty next7 then Message "No deadlines in the next 7 days."
  else Table (map (fun r : Row =>
                     (person r, topic r, action r, due_date r, status_col r))
                  next7).

(** The six columns the "Risk items" expander keeps. *)
Record RiskRow : Type := mkRiskRow {
  risk_person : option string;
  risk_feature_category : option string;
  risk_topic : option string;
  risk_sentiment : string;
  risk_status : Status;
  risk_due_date : option pd.Timestamp
}.

Definition risk_columns (r : Row) : RiskRow :=
  mkRiskRow (person r) (feature_category r) (topic r) (sentiment r)
            (status_col r) (due_date r).

(** [risk]: Mixed or Negative sentiment, or an urgent status. *)
Definition risk (df_filt : list Row) : list RiskRow :=
  map risk_columns
    (pd.loc df_filt
       (pd.mask_or
          (pd.isin String.eqb (col sentiment df_filt) ["±"; "-"]%string)
          (pd.isin Status_eqb (col_status df_filt) [DueSoon; Overdue]))).

(** The order of [sort_values(['status','due_date'], ascending=[False, True])]:
    status labels descending as strings, then due dates ascending with the
    missing ones last; rows equal on both keep their order. *)
Definition risk_le (a b : RiskRow) : bool :=
  match String.compare (Status_str (risk_status a)) (Status_str (risk_status b)) with
  | Gt => true
  | Lt => false
  | Eq => pd.key_le (risk_due_date a) (risk_due_date b)
  end.

Definition risk_block (df_filt : list Row) : Shown RiskRow :=
  let risk := risk df_filt in
  if pd.empty risk then Message "No risk-flagged items under current filters."
  else Table (sort_by risk_le risk).

(** Charts: the rows of the bar chart, [value_counts().reset_index()]. *)
Definition cat_counts (df_filt : list Row) : list (string * Z) :=
  pd.value_counts (col feature_category df_filt).

(** Action tracker. *)
Definition df_due (df_filt : list Row) : list Row :=
  pd.loc df_filt (pd.isin Status_eqb (col_status df_filt) [DueSoon; Overdue]).

Definition highlight_status (val : string) : string :=
  let color := ""%string in
  if String.eqb val "Overdue" then "background-color: #f8d7da"%string
  else if String.eqb val "Due Soon" then "background-color: #fff3cd"%string
  else color.

(** The tracker's table, each row with the style of its status cell, or the
    message shown when nothing is due. *)
Definition action_tracker (df_filt : list Row)
  : Shown (option string * option string * string * option pd.Timestamp * Status * string) :=
  let df_due := df_due df_filt in
  if negb (pd.empty df_due) then
    Table (map (fun r : Row =>
                  (person r, topic r, action r, due_date r, status_col r,
                   highlight_status (Status_str (status_col r))))
               df_due)
  else Message "✅ No upcoming or overdue actions — all items on track!".

(** Conversation explorer: the topics offered (a missing topic, if any,
    is offered once, as [unique] keeps it), the selectbox's answer on the
    first run (its first option, nothing when it has none), and the row
    looked up for an answer.  An answer that is nothing or the missing
    topic equals no cell of the column. *)
Definition topic_options (df_filt : list Row) : list (option string) :=
  pd.unique opt_eqb (col topic df_filt).

Definition selectbox {A : Type} (options : list A) : option A :=
  match options with
  | [] => None
  | o :: _ => Some o
  end.

Definition explorer (df_filt : list Row) (sel_topic : option (option string))
  : result Row :=
  match sel_topic with
  | Some (Some t) => sel_row df_filt t
  | Some None | None =>
      pd.iloc0 (pd.loc df_filt
                  (map (fun _ : option string => false) (col topic df_filt)))
  end.

(** ** One run of the script *)




(** ** Vocabulary of the further statements *)

(** Eight days, in nanoseconds: the first instant past the Due Soon window. *)
Definition eight_days : Z := 8 * pd.ns_per_day.

(** The test of [next7] on one row. *)
Definition in_next7_window (today : pd.Timestamp) (r : Row) : bool :=
  match due_date r with
  | None => false
  | Some t => (0 <=? pd.days (t - today)) && (pd.days (t - today) <=? 7)
  end.

Definition is_risk (r : Row) : bool :=
  existsb (String.eqb (sentiment r)) ["±"; "-"]%string || is_urgent r.

(** Position of a status in the risk table: Overdue first, Due Soon last. *)
Definition risk_rank (s : Status) : Z :=
  match s with
  | Overdue => 0
  | OnTrack => 1
  | NoDue => 2
  | DueSoon => 3
  end.

Definition risk_before (a b : RiskRow) : Prop :=
  risk_rank (risk_status a) < risk_rank (risk_status b)
  \/ (risk_status a = risk_status b
      /\ pd.key_le (risk_due_date a) (risk_due_date b) = true).

(** Sum of the counts of a value-count table. *)
Definition total_count (counts : list (string * Z)) : Z :=
  fold_right (fun kv acc => snd kv + acc) 0 counts.

(** The formats of the lines [build_insights] appends. *)
Definition is_insight_line (line : string) : Prop :=
  (exists c pct, line = focus_line c pct)
  \/ (exists p c pct n_pos n_mix n_neg rate urgent,
        line = snapshot_line p c pct n_pos n_mix n_neg rate urgent)
  \/ (exists n k, line = urgency_line n k)
  \/ (exists rows, line = deadlines_line rows)
  \/ (exists c n, line = wins_line c n)
  \/ (exists c, line = friction_line c).

(** * Sanity checks on concrete values *)

Example date_str_epoch : pd.date_str (Some 0) = "1970-01-01"%string.
Proof. reflexivity. Qed.

Example date_str_billion :
  pd.date_str (Some (1000000000 * 1000000000)) = "2001-09-09"%string.
Proof. vm_compute. reflexivity. Qed.

Example date_str_leap :
  pd.date_str (Some (19782 * pd.ns_per_day)) = "2024-02-29"%string.
Proof. vm_compute. reflexivity. Qed.

Example date_str_before_epoch :
  pd.date_str (Some (-1)) = "1969-12-31"%string.
Proof. vm_compute. reflexivity. Qed.

Example round_div_half_even :
  map (fun n => Py.round_div n 2) [1; 3; 5; 7] = [0; 2; 2; 4].
Proof. reflexivity. Qed.

Example safe_pct_two_thirds : _safe_pct 2 3 = 67.
Proof. reflexivity. Qed.

(** * Facts about masks and columns *)

Section MaskFacts.
Context {R : Type}.
Implicit Types (p q : R -> bool) (df : list R).

Lemma loc_filter p df : pd.loc df (map p df) = filter p df.
Proof.
  induction df as [|r df IH]; simpl.
  - reflexivity.
  - rewrite IH. reflexivity.
Qed.

Lemma mask_and_map p q df :
  pd.mask_and (map p df) (map q df) = map (fun r => p r && q r) df.
Proof.
  induction df as [|r df IH]; simpl; [reflexivity | now rewrite IH].
Qed.

Lemma sum_count p df : pd.sum (map p df) = count_where p df.
Proof.
  unfold count_where.
  induction df as [|r df IH]; simpl; [reflexivity |].
  rewrite IH. destruct (p r); simpl List.length; lia.
Qed.

Lemma empty_false_iff df : pd.empty df = false <-> df <> [].
Proof. destruct df; simpl; split; congruence. Qed.

Lemma empty_true_iff df : pd.empty df = true <-> df = [].
Proof. destruct df; simpl; split; congruence. Qed.
End MaskFacts.

Section ColumnFacts.
Context {A : Type} (eqb : A -> A -> bool) (f : RawRow -> A).
Implicit Types (df : list Row).

Lemma isin_col df values :
  pd.isin eqb (col f df) values
  = map (fun r : Row => existsb (eqb (f r)) values) df.
Proof. unfold pd.isin, col, pd.col. apply map_map. Qed.

Lemma eq_mask_col df v :
  pd.eq_mask eqb (col f df) v = map (fun r : Row => eqb (f r) v) df.
Proof. unfold pd.eq_mask, col, pd.col. apply map_map. Qed.

Lemma ne_mask_col df v :
  pd.ne_mask eqb (col f df) v = map (fun r : Row => negb (eqb (f r) v)) df.
Proof. unfold pd.ne_mask, col, pd.col. apply map_map. Qed.
End ColumnFacts.

Lemma eq_mask_status df s :
  pd.eq_mask Status_eqb (col_status df) s = map (has_status s) df.
Proof. unfold pd.eq_mask, col_status, pd.col, has_status. apply map_map. Qed.

Lemma isin_urgent df :
  pd.isin Status_eqb (col_status df) [DueSoon; Overdue] = map is_urgent df.
Proof.
  unfold pd.isin, col_status, pd.col. rewrite map_map.
  apply map_ext. intros r. unfold is_urgent, has_status. simpl.
  now rewrite orb_false_r.
Qed.

Lemma opt_eqb_eq a b : opt_eqb a b = true <-> a = b.
Proof.
  destruct a as [x|], b as [y|]; simpl; try (split; congruence).
  rewrite String.eqb_eq. split; congruence.
Qed.

Lemma Status_eqb_eq a b : Status_eqb a b = true <-> a = b.
Proof. destruct a, b; simpl; split; congruence. Qed.

Lemma existsb_opt_In x l : existsb (opt_eqb x) l = true <-> In x l.
Proof.
  rewrite existsb_exists. split.
  - intros (y & Hy & E). apply opt_eqb_eq in E. now subst.
  - intros H. exists x. split; [exact H | now apply opt_eqb_eq].
Qed.

Lemma existsb_str_In x l : existsb (String.eqb x) l = true <-> In x l.
Proof.
  rewrite existsb_exists. split.
  - intros (y & Hy & E). apply String.eqb_eq in E. now subst.
  - intros H. exists x. split; [exact H | now apply String.eqb_eq].
Qed.

(** The sub-frames the script selects, as filters. *)

Lemma sub_person df p :
  pd.loc df (pd.eq_mask opt_eqb (col person df) (Some p)) = filter (has_person p) df.
Proof. rewrite eq_mask_col. apply loc_filter. Qed.

Lemma sub_sentiment df s :
  pd.loc df (pd.eq_mask String.eqb (col sentiment df) s) = filter (has_sentiment s) df.
Proof. rewrite eq_mask_col. apply loc_filter. Qed.

Lemma sub_urgent df :
  pd.loc df (pd.isin Status_eqb (col_status df) [DueSoon; Overdue]) = filter is_urgent df.
Proof. rewrite isin_urgent. apply loc_filter. Qed.

Lemma sub_friction df :
  pd.loc df
    (pd.mask_and (pd.ne_mask String.eqb (col sentiment df) "+"%string)
                 (pd.isin opt_eqb (col feature_category df)
                          (map Some friction_categories)))
  = filter is_friction df.
Proof.
  rewrite ne_mask_col, isin_col, mask_and_map. apply loc_filter.
Qed.

Lemma sub_topic df key :
  pd.loc df (pd.eq_mask opt_eqb (col topic df) (Some key)) = filter (has_topic key) df.
Proof. rewrite eq_mask_col. apply loc_filter. Qed.

Lemma count_sentiment df s :
  pd.sum (pd.eq_mask String.eqb (col sentiment df) s) = count_where (has_sentiment s) df.
Proof. rewrite eq_mask_col. apply sum_count. Qed.

Lemma count_status df s :
  pd.sum (pd.eq_mask Status_eqb (col_status df) s) = count_where (has_status s) df.
Proof. rewrite eq_mask_status. apply sum_count. Qed.

Lemma count_urgent df :
  pd.sum (pd.isin Status_eqb (col_status df) [DueSoon; Overdue])
  = count_where is_urgent df.
Proof. rewrite isin_urgent. apply sum_count. Qed.

(** * Status derivation *)

Lemma days_nonneg delta : 0 <= delta -> 0 <= pd.days delta.
Proof.
  intros H. unfold pd.days, pd.ns_per_day. apply Z.div_pos; lia.
Qed.

Lemma eight_days_pos : 0 < eight_days.
Proof. reflexivity. Qed.

Lemma days_le_7 delta : (pd.days delta <=? 7) = true <-> delta < eight_days.
Proof.
  unfold pd.days, eight_days, pd.ns_per_day. rewrite Z.leb_le.
  split; intros H.
  - apply Z.nle_gt. intros Hge.
    assert (8 <= delta / 86400000000000)
      by (apply Z.div_le_lower_bound; lia).
    lia.
  - assert (delta / 86400000000000 < 8)
      by (apply Z.div_lt_upper_bound; lia).
    lia.
Qed.

Lemma whole_days_in_0_7 delta :
  0 <= delta -> whole_days_in 0 7 delta = (pd.days delta <=? 7).
Proof.
  intros H0. apply eq_true_iff_eq. rewrite days_le_7.
  unfold whole_days_in, eight_days, pd.ns_per_day.
  rewrite andb_true_iff, Z.leb_le, Z.ltb_lt. lia.
Qed.

Lemma status_rule_correct (today : pd.Timestamp) (row : RawRow) :
  status today row = status_rule (due_date row) today.
Proof.
  unfold status, status_rule.
  destruct (due_date row) as [d|]; [|reflexivity].
  destruct (Z.ltb_spec d today) as [Hlt|Hge]; [reflexivity|].
  rewrite whole_days_in_0_7 by lia. reflexivity.
Qed.


(** * Facts about [unique] *)

Section UniqueFacts.
Context {A : Type} (eqb : A -> A -> bool).
Hypothesis eqb_eq : forall a b, eqb a b = true <-> a = b.

Lemma eqb_refl_true a : eqb a a = true.
Proof. now apply eqb_eq. Qed.

Lemma unique_In (l : list A) x : In x (pd.unique eqb l) <-> In x l.
Proof.
  induction l as [|a l IH]; simpl; [tauto|].
  rewrite filter_In, IH. split.
  - intros [E | [H _]]; auto.
  - intros [E | H]; auto.
    destruct (eqb x a) eqn:Exa.
    + left. symmetry. now apply eqb_eq.
    + right. split; [exact H | reflexivity].
Qed.

Lemma unique_NoDup (l : list A) : NoDup (pd.unique eqb l).
Proof.
  induction l as [|a l IH]; simpl; constructor.
  - rewrite filter_In. intros [_ H]. now rewrite eqb_refl_true in H.
  - now apply NoDup_filter.
Qed.
End UniqueFacts.

Lemma filter_all {R : Type} (p : R -> bool) (l : list R) :
  (forall r, In r l -> p r = true) -> filter p l = l.
Proof.
  induction l as [|a l IH]; simpl; intros H; [reflexivity|].
  rewrite (H a) by now left. f_equal. apply IH. intros r Hr. apply H. now right.
Qed.

Lemma filter_none {R : Type} (p : R -> bool) (l : list R) :
  filter p l = [] <-> forall r, In r l -> p r = false.
Proof.
  induction l as [|a l IH]; simpl.
  - split; [intros _ r [] | reflexivity].
  - destruct (p a) eqn:Ea.
    + split; [discriminate|]. intros H. specialize (H a (or_introl eq_refl)). congruence.
    + rewrite IH. split.
      * intros H r [<-|Hr]; auto.
      * intros H r Hr. apply H. now right.
Qed.

(** * Filter engine *)

Lemma df_filt_filter df persons cats sents :
  df_filt df persons cats sents = filter (selected persons cats sents) df.
Proof.
  unfold df_filt. rewrite !isin_col, !mask_and_map. apply loc_filter.
Qed.

Lemma selected_iff persons cats sents (r : Row) :
  selected persons cats sents r = true
  <-> In (person r) persons /\ In (feature_category r) cats /\ In (sentiment r) sents.
Proof.
  unfold selected.
  rewrite !andb_true_iff, !existsb_opt_In, existsb_str_In. tauto.
Qed.

Lemma df_filt_defaults df :
  df_filt df (person_default df) (feature_default df) (sent_default df) = df.
Proof.
  rewrite df_filt_filter. apply filter_all. intros r Hr.
  apply selected_iff.
  unfold person_default, feature_default, sent_default, col, pd.col.
  rewrite !(unique_In opt_eqb opt_eqb_eq), (unique_In String.eqb String.eqb_eq).
  repeat split.
  - now apply (in_map (fun r : Row => person r)).
  - now apply (in_map (fun r : Row => feature_category r)).
  - now apply (in_map (fun r : Row => sentiment r)).
Qed.

(** C2.  The sidebar filter keeps exactly the rows whose person, category
    and sentiment each belong to the corresponding selection, in dataset
    order; with the three default selections (all distinct values of the
    dataset) it returns the dataset itself. *)
Theorem df_filt_membership (df : list Row)
    (persons cats : list (option string)) (sents : list string) :
  df_filt df persons cats sents = filter (selected persons cats sents) df
  /\ (forall r : Row,
        selected persons cats sents r = true
        <-> In (person r) persons /\ In (feature_category r) cats
            /\ In (sentiment r) sents)
  /\ df_filt df (person_default df) (feature_default df) (sent_default df) = df.
Proof.
  split; [apply df_filt_filter|].
  split; [intros r; apply selected_iff|].
  apply df_filt_defaults.
Qed.

(** * KPI aggregation *)

Lemma kpi_cards_fields view :
  kpi_cards view
  = {| total_topics := Z.of_nat (List.length view);
       pos := count_where (has_sentiment "+") view;
       mix := count_where (has_sentiment "±") view;
       neg := count_where (has_sentiment "-") view;
       due_soon := count_where (has_status DueSoon) view;
       overdue := count_where (has_status Overdue) view |}.
Proof.
  unfold kpi_cards. rewrite !count_sentiment, !count_status. reflexivity.
Qed.

Lemma count_where_cons {R : Type} (p : R -> bool) r view :
  count_where p (r :: view) = (if p r then 1 else 0) + count_where p view.
Proof.
  unfold count_where. simpl. destruct (p r); simpl List.length; lia.
Qed.

Lemma sentiment_partition view :
  Forall (fun r : Row => In (sentiment r) ["+"; "±"; "-"]%string) view ->
  count_where (has_sentiment "+") view + count_where (has_sentiment "±") view
  + count_where (has_sentiment "-") view = Z.of_nat (List.length view).
Proof.
  induction 1 as [|r view Hr _ IH]; [reflexivity|].
  rewrite !count_where_cons. simpl List.length. rewrite Nat2Z.inj_succ.
  assert (Hs : forall s, has_sentiment s r = String.eqb (sentiment r) s)
    by reflexivity.
  rewrite !Hs.
  destruct Hr as [E | [E | [E | []]]]; rewrite <- E;
    cbn [String.eqb Ascii.eqb Bool.eqb]; lia.
Qed.

(** C3.  The KPI cards hold the number of rows of the view, the numbers of
    rows whose sentiment is each of the three symbols and the numbers of
    rows whose status is DueSoon and Overdue; the computation is total, the empty
    view gives six zeros, and when every sentiment is one of the three
    symbols the three sentiment counts add up to the total. *)
Theorem kpi_cards_counts (view : list Row) :
  kpi_cards view
  = {| total_topics := Z.of_nat (List.length view);
       pos := count_where (has_sentiment "+") view;
       mix := count_where (has_sentiment "±") view;
       neg := count_where (has_sentiment "-") view;
       due_soon := count_where (has_status DueSoon) view;
       overdue := count_where (has_status Overdue) view |}
  /\ (forall (s : string) (r : Row),
        has_sentiment s r = true <-> sentiment r = s)
  /\ (forall (s : Status) (r : Row),
        has_status s r = true <-> status_col r = s)
  /\ kpi_cards [] = mkKPI 0 0 0 0 0 0
  /\ (Forall (fun r : Row => In (sentiment r) ["+"; "±"; "-"]%string) view ->
      pos (kpi_cards view) + mix (kpi_cards view) + neg (kpi_cards view)
      = total_topics (kpi_cards view)).
Proof.
  split; [apply kpi_cards_fields|].
  split; [intros s r; apply String.eqb_eq|].
  split; [intros s r; apply Status_eqb_eq|].
  split; [reflexivity|].
  intros H. rewrite kpi_cards_fields. simpl.
  now apply sentiment_partition.
Qed.

(** * Insights: the empty guard *)

(** C4.  On the empty view [build_insights] returns the one-element list
    ["No data under current filters."] and nothing else. *)
Theorem build_insights_empty :
  build_insights [] = Ok ["No data under current filters."%string].
Proof.
  unfold build_insights. simpl pd.empty. cbv iota. reflexivity.
Qed.

(** * Facts about the stable sort *)

Section SortFacts.
Context {A : Type} (le : A -> A -> bool).
Implicit Types (l : list A) (p : A -> bool).

Lemma insert_by_perm x l : Permutation (x :: l) (insert_by le x l).
Proof.
  induction l as [|y l IH]; simpl; [reflexivity|].
  destruct (le x y); [reflexivity|].
  rewrite perm_swap. now apply perm_skip.
Qed.

Lemma sort_by_perm l : Permutation l (sort_by le l).
Proof.
  induction l as [|x l IH]; simpl; [constructor|].
  rewrite <- insert_by_perm. now apply perm_skip.
Qed.

Lemma sort_by_In l x : In x (sort_by le l) <-> In x l.
Proof.
  split; apply Permutation_in;
    [symmetry |]; apply sort_by_perm.
Qed.

Lemma sort_by_nil l : sort_by le l = [] <-> l = [].
Proof.
  split; intros H.
  - apply Permutation_nil. rewrite <- H. symmetry. apply sort_by_perm.
  - now subst.
Qed.

(** Rows that [p] selects never overtake one another. *)
Lemma insert_by_filter p x l :
  (forall y, p x = true -> p y = true -> le x y = true) ->
  filter p (insert_by le x l) = filter p (x :: l).
Proof.
  intros Hp. induction l as [|y l IH]; [reflexivity|].
  simpl insert_by. destruct (le x y) eqn:Exy; [reflexivity|].
  change (filter p (y :: insert_by le x l))
    with (if p y then y :: filter p (insert_by le x l)
          else filter p (insert_by le x l)).
  rewrite IH. simpl.
  destruct (p x) eqn:Epx, (p y) eqn:Epy; try reflexivity.
  specialize (Hp y eq_refl Epy). congruence.
Qed.

Lemma sort_by_filter p l :
  (forall x y, p x = true -> p y = true -> le x y = true) ->
  filter p (sort_by le l) = filter p l.
Proof.
  intros Hp. induction l as [|x l IH]; [reflexivity|].
  simpl sort_by. rewrite insert_by_filter by (intros y; apply Hp).
  simpl. now rewrite IH.
Qed.

Hypothesis le_total : forall a b, le a b = true \/ le b a = true.

Lemma insert_by_HdRel a x l :
  le a x = true ->
  HdRel (fun u v => le u v = true) a l ->
  HdRel (fun u v => le u v = true) a (insert_by le x l).
Proof.
  intros Hax Hl. destruct l as [|y l]; simpl.
  - now constructor.
  - destruct (le x y); constructor; [exact Hax|].
    now inversion Hl.
Qed.

Lemma insert_by_sorted x l :
  Sorted (fun u v => le u v = true) l ->
  Sorted (fun u v => le u v = true) (insert_by le x l).
Proof.
  induction 1 as [|y l Hs IH Hd]; simpl.
  - repeat constructor.
  - destruct (le x y) eqn:Exy.
    + constructor; [now constructor | now constructor].
    + constructor; [exact IH|].
      apply insert_by_HdRel; [|exact Hd].
      destruct (le_total x y); congruence.
Qed.

Lemma sort_by_sorted l : Sorted (fun u v => le u v = true) (sort_by le l).
Proof.
  induction l as [|x l IH]; simpl; [constructor|].
  now apply insert_by_sorted.
Qed.
End SortFacts.

(** * Facts about splitting a list at an element *)

Section SplitFacts.
Context {R : Type}.
Implicit Types (p : R -> bool) (l : list R).

(** The head of a filtered list is the first match of the list. *)
Lemma filter_head_split p l x rest :
  filter p l = x :: rest ->
  exists before after,
    l = (before ++ x :: after)%list /\ p x = true
    /\ forall y, In y before -> p y = false.
Proof.
  induction l as [|a l IH]; simpl; [discriminate|].
  destruct (p a) eqn:Ea.
  - intros E. injection E as -> _.
    exists [], l. repeat split; [exact Ea | intros y []].
  - intros E. destruct (IH E) as (before & after & -> & Hp & Hb).
    exists (a :: before), after. repeat split; [exact Hp|].
    intros y [<-|Hy]; auto.
Qed.

(** A split of the filtered list comes from a split of the list. *)
Lemma filter_eq_split p l : forall a1 x a2,
  filter p l = (a1 ++ x :: a2)%list ->
  exists w1 w2,
    l = (w1 ++ x :: w2)%list /\ filter p w1 = a1 /\ filter p w2 = a2.
Proof.
  induction l as [|y l IH]; intros a1 x a2; simpl.
  - destruct a1; discriminate.
  - destruct (p y) eqn:Ey.
    + destruct a1 as [|z a1]; simpl; intros E; injection E as -> E.
      * exists [], l. now repeat split.
      * destruct (IH _ _ _ E) as (w1 & w2 & -> & H1 & H2).
        exists (z :: w1), w2. repeat split; [|exact H2].
        simpl. now rewrite Ey, H1.
    + intros E. destruct (IH _ _ _ E) as (w1 & w2 & -> & H1 & H2).
      exists (y :: w1), w2. repeat split; [|exact H2].
      simpl. now rewrite Ey.
Qed.
End SplitFacts.

(** Everything before the first occurrence of [x] in [l] stands before [x]
    in [unique l]. *)
Lemma unique_first_occurrence (l : list string) : forall u1 x u2,
  pd.unique String.eqb l = (u1 ++ x :: u2)%list ->
  exists l1 l2, l = (l1 ++ x :: l2)%list /\ forall c, In c l1 -> In c u1.
Proof.
  induction l as [|a l IH]; intros u1 x u2; simpl.
  - destruct u1; discriminate.
  - destruct u1 as [|b u1]; simpl; intros E; injection E as -> E.
    + exists [], l. split; [reflexivity | intros c []].
    + apply filter_eq_split in E. destruct E as (w1 & w2 & Hu & H1 & _).
      destruct (IH _ _ _ Hu) as (l1 & l2 & -> & Hl1).
      exists (b :: l1), l2. split; [reflexivity|].
      intros c [<-|Hc]; [now left|].
      destruct (String.eqb c b) eqn:Ecb.
      * apply String.eqb_eq in Ecb. now left.
      * right. rewrite <- H1. apply filter_In. split; [now apply Hl1|].
        now rewrite Ecb.
Qed.

(** * Facts about [idxmax], [max] and [value_counts] *)

(** [first_max_from] returns the first entry holding the maximum. *)
Lemma first_max_from_split (rest : list (string * Z)) : forall best,
  snd best <= snd (pd.first_max_from best rest) /\
  exists l1 l2,
    best :: rest = (l1 ++ pd.first_max_from best rest :: l2)%list
    /\ (forall e, In e l1 -> snd e < snd (pd.first_max_from best rest))
    /\ (forall e, In e l2 -> snd e <= snd (pd.first_max_from best rest)).
Proof.
  induction rest as [|kv t IH]; intros best; simpl.
  - split; [lia|]. exists [], []. repeat split; intros e [].
  - destruct (Z.ltb_spec (snd best) (snd kv)) as [Hlt|Hge].
    + destruct (IH kv) as (Hle & l1 & l2 & E & H1 & H2).
      remember (pd.first_max_from kv t) as res.
      split; [lia|].
      exists (best :: l1), l2. rewrite E. repeat split; [|exact H2].
      intros e [<-|He]; [lia | now apply H1].
    + destruct (IH best) as (Hle & l1 & l2 & E & H1 & H2).
      remember (pd.first_max_from best t) as res.
      split; [exact Hle|].
      destruct l1 as [|b l1]; simpl in E; injection E as Eb Et.
      * exists [], (kv :: t). rewrite <- Eb. repeat split; [intros e []|].
        intros e [<-|He]; [lia|]. rewrite Eb. apply H2. now rewrite <- Et.
      * exists (best :: kv :: l1), l2. rewrite Et at 1.
        repeat split; [|exact H2].
        intros e [<-|[<-|He]].
        -- apply H1. left. now symmetry.
        -- specialize (H1 b (or_introl eq_refl)). rewrite <- Eb in H1. lia.
        -- apply H1. now right.
Qed.

Lemma max_first_max kv (t : list (string * Z)) :
  pd.max (kv :: t) = snd (pd.first_max_from kv t).
Proof.
  simpl. revert kv. induction t as [|e t IH]; intros kv; simpl; [reflexivity|].
  destruct (Z.ltb_spec (snd kv) (snd e)) as [Hlt|Hge].
  - rewrite Z.max_r by lia. apply IH.
  - rewrite Z.max_l by lia. apply IH.
Qed.

Lemma occurrences_occ (cats : list string) (c : string) :
  pd.occurrences c cats = Z.of_nat (occ cats c).
Proof.
  unfold pd.occurrences, pd.eq_mask, occ.
  induction cats as [|a cats IH]; [reflexivity|].
  simpl map. simpl pd.sum. rewrite IH. simpl count_occ.
  destruct (string_dec a c) as [E|NE].
  - apply String.eqb_eq in E. rewrite E. lia.
  - apply String.eqb_neq in NE. rewrite NE. lia.
Qed.

Lemma occ_not_In (cats : list string) (c : string) :
  ~ In c cats -> occ cats c = 0%nat.
Proof. unfold occ. apply count_occ_not_In. Qed.

Lemma dropna_In {A : Type} (s : list (option A)) (a : A) :
  In a (pd.dropna s) <-> In (Some a) s.
Proof.
  induction s as [|[b|] s IH]; simpl; [tauto| |].
  - rewrite IH. split; intros [E|H]; auto; left; congruence.
  - rewrite IH. split; [auto|]. intros [E|H]; [discriminate | exact H].
Qed.

Lemma value_counts_empty (s : list (option string)) :
  pd.empty (pd.value_counts s) = true <-> pd.dropna s = [].
Proof.
  unfold pd.value_counts. rewrite empty_true_iff, sort_by_nil.
  destruct (pd.dropna s); simpl; split; congruence.
Qed.

(** On a series with at least one value present, [idxmax] of the value
    counts is the dominant value and [max] is its number of occurrences. *)
Lemma value_counts_top (s : list (option string)) :
  pd.dropna s <> [] ->
  exists top,
    pd.idxmax (pd.value_counts s) = Ok top
    /\ is_dominant (pd.dropna s) top
    /\ pd.max (pd.value_counts s) = Z.of_nat (occ (pd.dropna s) top).
Proof.
  intros Hne. unfold pd.value_counts.
  set (vals := pd.dropna s) in *.
  set (entry := fun k : string => (k, pd.occurrences k vals)).
  set (table := map entry (pd.unique String.eqb vals)).
  set (le := fun a b : string * Z => snd b <=? snd a).
  destruct (sort_by le table) as [|kv t] eqn:Esort.
  { apply sort_by_nil in Esort. subst table.
    destruct vals; [congruence | discriminate]. }
  destruct (first_max_from_split t kv) as (_ & s1 & s2 & Esplit & Hs1 & Hs2).
  rewrite max_first_max. simpl pd.idxmax.
  remember (pd.first_max_from kv t) as res.
  (* every entry of the table is an entry of the sorted series *)
  assert (Hin : forall e, In e table <-> In e (kv :: t)).
  { intros e. rewrite <- Esort. symmetry. apply sort_by_In. }
  assert (Hres : In res table).
  { apply Hin. rewrite Esplit. apply in_elt. }
  assert (Hmax : forall e, In e table -> snd e <= snd res).
  { intros e He. apply Hin in He. rewrite Esplit in He.
    apply in_app_or in He. destruct He as [He|[<-|He]].
    - specialize (Hs1 e He). lia.
    - lia.
    - now apply Hs2. }
  unfold table in Hres. apply in_map_iff in Hres.
  destruct Hres as (top & Etop & Htop). subst res. rename Etop into Eres.
  assert (Hsnd : snd (pd.first_max_from kv t) = Z.of_nat (occ vals top)).
  { rewrite <- Eres. simpl. apply occurrences_occ. }
  assert (Hfst : fst (pd.first_max_from kv t) = top).
  { now rewrite <- Eres. }
  exists top. rewrite Hfst. split; [reflexivity|]. split; [|exact Hsnd].
  assert (Hle_all : forall c, (occ vals c <= occ vals top)%nat).
  { intros c. destruct (in_dec string_dec c vals) as [Hc|Hc].
    - assert (He : In (entry c) table).
      { apply in_map. now apply (unique_In String.eqb String.eqb_eq). }
      specialize (Hmax _ He). rewrite Hsnd in Hmax. simpl in Hmax.
      rewrite occurrences_occ in Hmax. lia.
    - rewrite (occ_not_In _ _ Hc). lia. }
  split; [exact Hle_all|].
  (* the first entry with the maximal count, in the sorted series and in the table *)
  set (m := snd (pd.first_max_from kv t)) in *.
  set (p := fun e : string * Z => snd e =? m).
  assert (Hstable : filter p (sort_by le table) = filter p table).
  { apply sort_by_filter. intros x y Hx Hy. unfold p in Hx, Hy. unfold le.
    apply Z.eqb_eq in Hx, Hy. apply Z.leb_le. lia. }
  rewrite Esort, Esplit, filter_app in Hstable.
  assert (E1 : filter p s1 = []).
  { apply filter_none. intros e He. specialize (Hs1 e He).
    unfold p. apply Z.eqb_neq. fold m in Hs1. lia. }
  rewrite E1 in Hstable. simpl in Hstable.
  assert (Ep : p (pd.first_max_from kv t) = true) by (unfold p; apply Z.eqb_refl).
  rewrite Ep in Hstable. symmetry in Hstable.
  apply filter_head_split in Hstable.
  destruct Hstable as (t1 & t2 & Etable & _ & Ht1).
  unfold table in Etable.
  apply map_eq_app in Etable. destruct Etable as (u1 & u2' & Eu & Emap1 & Emap2).
  destruct u2' as [|x u2]; [discriminate|].
  simpl in Emap2. injection Emap2 as Ex _.
  assert (x = top).
  { rewrite <- Eres in Ex. unfold entry in Ex. now injection Ex. }
  subst x.
  destruct (unique_first_occurrence _ _ _ _ Eu) as (l1 & l2 & El & Hl1).
  exists l1, l2. split; [exact El|].
  intros c Hc. specialize (Hl1 c Hc).
  assert (He : In (entry c) t1).
  { rewrite <- Emap1. now apply in_map. }
  specialize (Ht1 _ He). unfold p in Ht1. apply Z.eqb_neq in Ht1.
  simpl in Ht1. rewrite occurrences_occ in Ht1.
  rewrite Hsnd in Ht1.
  specialize (Hle_all c). lia.
Qed.

(** * Percentages *)

Lemma round_div_rounded num den :
  0 < den -> is_rounded num den (Py.round_div num den).
Proof.
  intros Hden. unfold is_rounded, Py.round_div.
  pose proof (Z.div_mod num den ltac:(lia)) as Hdm.
  pose proof (Z.mod_pos_bound num den Hden) as Hr.
  set (q := num / den) in *. set (r := num mod den) in *.
  destruct (Z.ltb_spec (2 * r) den) as [H1|H1].
  - replace (num - q * den) with r by lia. split; lia.
  - destruct (Z.ltb_spec den (2 * r)) as [H2|H2].
    + replace (num - (q + 1) * den) with (r - den) by lia. split; lia.
    + destruct (Z.even q) eqn:Eq.
      * replace (num - q * den) with r by lia. split; [lia | auto].
      * replace (num - (q + 1) * den) with (r - den) by lia.
        split; [lia|]. intros _.
        rewrite Z.add_1_r, Z.even_succ, <- Z.negb_even, Eq. reflexivity.
Qed.

Lemma _safe_pct_zero num : _safe_pct num 0 = 0.
Proof. reflexivity. Qed.

Lemma _safe_pct_rounded num den :
  0 < den -> is_rounded (100 * num) den (_safe_pct num den).
Proof.
  intros Hden. unfold _safe_pct.
  destruct (Z.eqb_spec den 0) as [E|_]; [lia|].
  now apply round_div_rounded.
Qed.

Lemma min_Zmin a b : Py.min a b = Z.min a b.
Proof. unfold Py.min. destruct (Z.ltb_spec b a); lia. Qed.

(** * The four blocks of [build_insights] *)

Lemma categories_nonempty view (r : Row) c :
  In r view -> feature_category r = Some c -> categories view <> [].
Proof.
  intros Hr Hc Hnil.
  assert (H : In c (categories view)).
  { unfold categories. apply dropna_In. rewrite <- Hc.
    unfold col, pd.col. now apply (in_map (fun r : Row => feature_category r)). }
  rewrite Hnil in H. exact H.
Qed.

Lemma Py_len_pos {R : Type} (l : list R) : l <> [] -> 0 < Py.len l.
Proof. destruct l; [congruence|]. intros _. unfold Py.len. simpl List.length. lia. Qed.

Lemma categories_view_nonempty view : categories view <> [] -> view <> [].
Proof. intros H E. subst view. now apply H. Qed.

(** Block 1. *)

Lemma overall_focus_some view :
  categories view <> [] ->
  exists top,
    is_dominant (categories view) top
    /\ forall insights,
        overall_focus view insights
        = Ok (insights ++
              [focus_line top (_safe_pct (Z.of_nat (occ (categories view) top))
                                         (Py.len view))]).
Proof.
  intros Hne.
  destruct (value_counts_top (col feature_category view) Hne)
    as (top & Hidx & Hdom & Hmax).
  exists top. split; [exact Hdom|]. intros insights.
  unfold overall_focus.
  destruct (pd.empty (pd.value_counts (col feature_category view))) eqn:Ee.
  - apply value_counts_empty in Ee. contradiction.
  - simpl negb. cbv iota. rewrite Hidx, Hmax. reflexivity.
Qed.

Lemma overall_focus_none view insights :
  categories view = [] -> overall_focus view insights = Ok insights.
Proof.
  intros Hnil. unfold overall_focus.
  apply value_counts_empty in Hnil. rewrite Hnil. reflexivity.
Qed.

(** Block 2. *)

Lemma has_person_iff p (r : Row) : has_person p r = true <-> person r = Some p.
Proof. unfold has_person. apply opt_eqb_eq. Qed.

Lemma person_snapshot_line (view : list Row) p :
  (exists r : Row, In r view /\ person r = Some p) ->
  exists line,
    is_snapshot_of view p line
    /\ forall insights, person_snapshot view insights p = Ok (insights ++ [line]).
Proof.
  intros (r & Hr & Hp).
  assert (Hsub : pd.empty (filter (has_person p) view) = false).
  { apply empty_false_iff. intros E.
    pose proof (proj1 (filter_none _ _) E r Hr) as H.
    apply has_person_iff in Hp. congruence. }
  unfold person_snapshot, is_snapshot_of. rewrite sub_person.
  set (sub := filter (has_person p) view) in *.
  rewrite Hsub, !count_sentiment, count_urgent.
  destruct (pd.empty (pd.value_counts (col feature_category sub))) eqn:Ee.
  - apply value_counts_empty in Ee. simpl negb. cbv iota.
    eexists. split.
    + exists "N/A"%string, 0. split; [left; repeat split; exact Ee | reflexivity].
    + intros insights. reflexivity.
  - assert (Hne : categories sub <> []).
    { intros E. apply value_counts_empty in E. congruence. }
    destruct (value_counts_top (col feature_category sub) Hne)
      as (top & Hidx & Hdom & Hmax).
    simpl negb. cbv iota. rewrite Hidx, Hmax.
    eexists. split.
    + exists top, (Z.of_nat (occ (categories sub) top)).
      split; [right; split; [exact Hdom | reflexivity] | reflexivity].
    + intros insights. reflexivity.
Qed.

(** A loop whose body appends one line per element appends them all. *)
Lemma for_each_lines {A : Type} (Q : A -> string -> Prop)
    (body : list string -> A -> result (list string)) (xs : list A) :
  (forall x, In x xs ->
     exists line, Q x line /\ forall acc, body acc x = Ok (acc ++ [line])) ->
  exists lines,
    Forall2 Q xs lines /\ forall acc, for_each xs body acc = Ok (acc ++ lines).
Proof.
  induction xs as [|x xs IH]; intros H.
  - exists []. split; [constructor|]. intros acc. simpl. now rewrite app_nil_r.
  - destruct (H x (or_introl eq_refl)) as (line & HQ & Hbody).
    destruct IH as (lines & HF & Hrest).
    { intros y Hy. apply H. now right. }
    exists (line :: lines). split; [now constructor|].
    intros acc. simpl. rewrite Hbody. simpl. rewrite Hrest.
    now rewrite <- app_assoc.
Qed.

Lemma snapshot_persons_In (view : list Row) p :
  In p (snapshot_persons view) <-> exists r : Row, In r view /\ person r = Some p.
Proof.
  unfold snapshot_persons, Py.sorted.
  rewrite sort_by_In, (unique_In String.eqb String.eqb_eq), dropna_In.
  unfold col, pd.col. rewrite in_map_iff. split.
  - intros (r & E & Hr). eauto.
  - intros (r & Hr & E). eauto.
Qed.

Lemma per_person_lines view :
  exists lines,
    Forall2 (is_snapshot_of view) (snapshot_persons view) lines
    /\ forall insights, per_person view insights = Ok (insights ++ lines).
Proof.
  unfold per_person. fold (snapshot_persons view).
  apply for_each_lines. intros p Hp.
  apply person_snapshot_line. now apply snapshot_persons_In.
Qed.

(** Block 3. *)

Lemma key_le_total a b : pd.key_le a b = true \/ pd.key_le b a = true.
Proof.
  destruct a as [x|], b as [y|]; simpl; auto.
  destruct (Z.leb_spec x y); [now left | right; apply Z.leb_le; lia].
Qed.

Lemma key_le_trans a b c :
  pd.key_le a b = true -> pd.key_le b c = true -> pd.key_le a c = true.
Proof.
  destruct a as [x|], b as [y|], c as [z|]; simpl; try congruence.
  rewrite !Z.leb_le. lia.
Qed.

Lemma sort_values_stable (l : list Row) :
  is_stable_sort_by_due l (pd.sort_values (fun r : Row => due_date r) l).
Proof.
  unfold is_stable_sort_by_due, pd.sort_values. split; [|split].
  - apply sort_by_perm.
  - apply (sort_by_sorted (fun a b : Row => pd.key_le (due_date a) (due_date b))).
    intros a b. apply key_le_total.
  - intros d. apply sort_by_filter. intros x y Hx Hy.
    apply andb_true_iff in Hx, Hy.
    apply key_le_trans with d; tauto.
Qed.

Lemma urgency_signal_some view insights :
  filter is_urgent view <> [] ->
  urgency_signal view insights
  = insights ++
    [urgency_line (Py.len (filter is_urgent view))
                  (count_where (has_status Overdue) (filter is_urgent view));
     deadlines_line
       (firstn 3 (pd.sort_values (fun r : Row => due_date r) (filter is_urgent view)))].
Proof.
  intros Hne. unfold urgency_signal. rewrite sub_urgent, count_status.
  apply empty_false_iff in Hne. rewrite Hne. simpl negb. cbv iota.
  rewrite <- app_assoc. reflexivity.
Qed.

Lemma urgency_signal_none view insights :
  filter is_urgent view = [] -> urgency_signal view insights = insights.
Proof.
  intros E. unfold urgency_signal. rewrite sub_urgent, E. reflexivity.
Qed.

(** Block 4. *)

Lemma is_friction_iff (r : Row) :
  is_friction r = true
  <-> sentiment r <> "+"%string
      /\ exists c, In c friction_categories /\ feature_category r = Some c.
Proof.
  unfold is_friction, has_sentiment.
  rewrite andb_true_iff, negb_true_iff, String.eqb_neq, existsb_opt_In, in_map_iff.
  split.
  - intros [H (c & E & Hc)]. split; [exact H|]. exists c. now split.
  - intros [H (c & Hc & E)]. split; [exact H|]. exists c. now split.
Qed.

Lemma friction_has_category view :
  filter is_friction view <> [] -> categories (filter is_friction view) <> [].
Proof.
  intros Hne.
  destruct (filter is_friction view) as [|r rest] eqn:E; [congruence|].
  assert (Hin : In r (filter is_friction view)) by (rewrite E; now left).
  apply filter_In in Hin. destruct Hin as [_ Hf].
  apply is_friction_iff in Hf. destruct Hf as (_ & c & _ & Hc).
  apply (categories_nonempty (r :: rest) r c); [now left | exact Hc].
Qed.

Lemma wins_vs_friction_lines view :
  filter (has_sentiment "+") view = []
  \/ categories (filter (has_sentiment "+") view) <> [] ->
  exists wl fl,
    wins_part view wl /\ friction_part view fl
    /\ forall insights, wins_vs_friction view insights = Ok (insights ++ wl ++ fl).
Proof.
  intros Hw.
  (* the wins *)
  assert (W : exists wl, wins_part view wl /\
            forall insights,
              (if negb (pd.empty (filter (has_sentiment "+") view)) then
                 top_win_cat <- pd.idxmax (pd.value_counts
                                  (col feature_category (filter (has_sentiment "+") view))) ;;
                 Ok (insights ++
                     [("Wins cluster in **" ++ top_win_cat ++ "** (e.g., "
                       ++ Py.str (Py.min 3 (Py.len (filter (has_sentiment "+") view)))
                       ++ " recent positives).")%string])
               else Ok insights) = Ok (insights ++ wl)).
  { destruct (filter (has_sentiment "+") view) as [|w ws] eqn:Ew.
    - exists []. split; [left; now split|]. intros insights. simpl.
      now rewrite app_nil_r.
    - destruct Hw as [Hw|Hw]; [discriminate|].
      destruct (value_counts_top _ Hw) as (top & Hidx & Hdom & _).
      exists [wins_line top (Z.min 3 (Py.len (w :: ws)))].
      split.
      + right. rewrite Ew. split; [discriminate|]. exists top. now split.
      + intros insights. simpl pd.empty. simpl negb. cbv iota.
        rewrite Hidx, min_Zmin. reflexivity. }
  (* the friction rows *)
  assert (F : exists fl, friction_part view fl /\
            forall insights,
              (if negb (pd.empty (filter is_friction view)) then
                 top_frict_cat <- pd.idxmax (pd.value_counts
                                    (col feature_category (filter is_friction view))) ;;
                 Ok (insights ++
                     [("Friction hotspots: **" ++ top_frict_cat
                       ++ "** (prioritize coaching/unblocking).")%string])
               else Ok insights) = Ok (insights ++ fl)).
  { destruct (filter is_friction view) as [|f fs] eqn:Ef.
    - exists []. split; [left; now split|]. intros insights. simpl.
      now rewrite app_nil_r.
    - assert (Hc : categories (f :: fs) <> []).
      { rewrite <- Ef. apply friction_has_category. rewrite Ef. discriminate. }
      destruct (value_counts_top _ Hc) as (top & Hidx & Hdom & _).
      exists [friction_line top]. split.
      + right. rewrite Ef. split; [discriminate|]. exists top. now split.
      + intros insights. simpl pd.empty. simpl negb. cbv iota.
        rewrite Hidx. reflexivity. }
  destruct W as (wl & HW & Ewl). destruct F as (fl & HF & Efl).
  exists wl, fl. split; [exact HW|]. split; [exact HF|].
  intros insights. unfold wins_vs_friction.
  rewrite sub_sentiment, sub_friction, Ewl. simpl bind.
  rewrite Efl. now rewrite app_assoc.
Qed.

(** The unguarded [idxmax] of block 4: wins that all lack a category make
    the whole function raise. *)
Lemma wins_vs_friction_raises view insights :
  filter (has_sentiment "+") view <> [] ->
  categories (filter (has_sentiment "+") view) = [] ->
  wins_vs_friction view insights = Raise ValueError.
Proof.
  intros Hne Hnil. unfold wins_vs_friction. rewrite sub_sentiment.
  apply empty_false_iff in Hne. rewrite Hne. simpl negb. cbv iota.
  unfold pd.value_counts. fold (categories (filter (has_sentiment "+") view)).
  rewrite Hnil. reflexivity.
Qed.

(** The function as the sequence of its blocks. *)
Lemma build_insights_blocks view :
  view <> [] ->
  build_insights view
  = (i1 <- overall_focus view [] ;;
     i2 <- per_person view i1 ;;
     wins_vs_friction view (urgency_signal view i2)).
Proof.
  intros Hne. unfold build_insights.
  apply empty_false_iff in Hne. now rewrite Hne.
Qed.

Lemma urgency_signal_append view :
  exists ul, forall insights, urgency_signal view insights = insights ++ ul.
Proof.
  destruct (filter is_urgent view) as [|r rest] eqn:E.
  - exists []. intros insights. rewrite app_nil_r. now apply urgency_signal_none.
  - eexists. intros insights. apply urgency_signal_some. rewrite E. discriminate.
Qed.

(** When the wins, if any, carry a category, the function returns the lines
    of its four blocks in order. *)
Lemma build_insights_returns view :
  view <> [] ->
  filter (has_sentiment "+") view = []
  \/ categories (filter (has_sentiment "+") view) <> [] ->
  exists fl pl ul wl frl,
    build_insights view = Ok (fl ++ pl ++ ul ++ wl ++ frl)
    /\ (forall insights, overall_focus view insights = Ok (insights ++ fl))
    /\ (forall insights, per_person view insights = Ok (insights ++ pl))
    /\ (forall insights, urgency_signal view insights = insights ++ ul)
    /\ (forall insights, wins_vs_friction view insights = Ok (insights ++ wl ++ frl)).
Proof.
  intros Hne Hw.
  assert (F : exists fl, forall insights,
               overall_focus view insights = Ok (insights ++ fl)).
  { destruct (categories view) as [|c cs] eqn:Ec.
    - exists []. intros insights. rewrite app_nil_r. now apply overall_focus_none.
    - destruct (overall_focus_some view) as (top & _ & H).
      + rewrite Ec. discriminate.
      + eexists. exact H. }
  destruct F as (fl & Hfl).
  destruct (per_person_lines view) as (pl & _ & Hpl).
  destruct (urgency_signal_append view) as (ul & Hul).
  destruct (wins_vs_friction_lines view Hw) as (wl & frl & _ & _ & Hwf).
  exists fl, pl, ul, wl, frl.
  split; [|repeat split; assumption].
  rewrite build_insights_blocks by exact Hne.
  rewrite Hfl. simpl bind. rewrite Hpl. simpl bind. rewrite Hul, Hwf.
  now rewrite <- !app_assoc.
Qed.

(** * The order of Python strings *)

Lemma ltb_trans a b c :
  String.ltb a b = true -> String.ltb b c = true -> String.ltb a c = true.
Proof.
  unfold String.ltb. intros H1 H2.
  destruct (String.compare a b) eqn:E1; try discriminate.
  destruct (String.compare b c) eqn:E2; try discriminate.
  assert (T : String_as_OT.lt a c).
  { eapply (@StrictOrder_Transitive _ _ String_as_OT.lt_strorder);
      [exact E1 | exact E2]. }
  unfold String_as_OT.lt in T. change (String.compare a c = Lt) in T.
  now rewrite T.
Qed.

Lemma ltb_irrefl a : String.ltb a a = false.
Proof.
  unfold String.ltb.
  pose proof (String.compare_antisym a a) as H.
  destruct (String.compare a a); simpl in H; congruence.
Qed.

Lemma leb_cases a b : String.leb a b = true -> a = b \/ String.ltb a b = true.
Proof.
  unfold String.leb, String.ltb.
  destruct (String.compare a b) eqn:E; intros H; try discriminate.
  - left. now apply String.compare_eq_iff.
  - now right.
Qed.

Lemma ltb_leb a b : String.ltb a b = true -> String.leb a b = true.
Proof.
  unfold String.leb, String.ltb. destruct (String.compare a b); congruence.
Qed.

Lemma leb_trans a b c :
  String.leb a b = true -> String.leb b c = true -> String.leb a c = true.
Proof.
  intros H1 H2.
  destruct (leb_cases _ _ H1) as [->|L1]; [exact H2|].
  destruct (leb_cases _ _ H2) as [<-|L2]; [exact H1|].
  apply ltb_leb. now apply ltb_trans with b.
Qed.

(** A sorted list without repetition is strictly ascending. *)
Lemma sorted_nodup_strict (l : list string) :
  Sorted (fun a b => String.leb a b = true) l -> NoDup l ->
  StronglySorted (fun a b => String.ltb a b = true) l.
Proof.
  intros Hs Hn.
  apply Sorted_StronglySorted in Hs; [|intros a b c; apply leb_trans].
  induction Hs as [|a l Hs IH Hall]; constructor.
  - apply IH. now inversion Hn.
  - inversion Hn as [|? ? Hnotin _]; subst.
    rewrite Forall_forall in *. intros x Hx.
    destruct (leb_cases _ _ (Hall x Hx)) as [->|H]; [contradiction | exact H].
Qed.

(** Two strictly ascending lists with the same members are equal. *)
Lemma strict_sorted_ext (l1 : list string) : forall l2,
  StronglySorted (fun a b => String.ltb a b = true) l1 ->
  StronglySorted (fun a b => String.ltb a b = true) l2 ->
  (forall x, In x l1 <-> In x l2) -> l1 = l2.
Proof.
  induction l1 as [|a t1 IH]; intros l2 H1 H2 Hmem.
  - destruct l2 as [|b t2]; [reflexivity|].
    exfalso. apply (Hmem b). now left.
  - destruct l2 as [|b t2].
    { exfalso. apply (Hmem a). now left. }
    inversion H1 as [|? ? Ht1 Ha]; subst. inversion H2 as [|? ? Ht2 Hb]; subst.
    rewrite Forall_forall in Ha, Hb.
    assert (Eab : a = b).
    { destruct (proj1 (Hmem a) (or_introl eq_refl)) as [E|Hin]; [now symmetry|].
      destruct (proj2 (Hmem b) (or_introl eq_refl)) as [E|Hin']; [exact E|].
      pose proof (ltb_trans _ _ _ (Ha b Hin') (Hb a Hin)) as Habs.
      rewrite ltb_irrefl in Habs. discriminate. }
    subst b. f_equal. apply IH; [exact Ht1 | exact Ht2|].
    intros x. split; intros Hx.
    + destruct (proj1 (Hmem x) (or_intror Hx)) as [E|Hin]; [|exact Hin].
      subst x. pose proof (Ha a Hx) as Habs. rewrite ltb_irrefl in Habs. discriminate.
    + destruct (proj2 (Hmem x) (or_intror Hx)) as [E|Hin]; [|exact Hin].
      subst x. pose proof (Hb a Hx) as Habs. rewrite ltb_irrefl in Habs. discriminate.
Qed.

Lemma snapshot_persons_strict view :
  StronglySorted (fun a b => String.ltb a b = true) (snapshot_persons view).
Proof.
  unfold snapshot_persons, Py.sorted. apply sorted_nodup_strict.
  - apply sort_by_sorted. apply String.leb_total.
  - eapply Permutation_NoDup; [apply sort_by_perm|].
    apply unique_NoDup. apply String.eqb_eq.
Qed.

Lemma snapshot_persons_perm view view' :
  Permutation view view' -> snapshot_persons view' = snapshot_persons view.
Proof.
  intros HP. apply strict_sorted_ext; try apply snapshot_persons_strict.
  intros p. rewrite !snapshot_persons_In. split; intros (r & Hr & E); exists r.
  - split; [|exact E]. eapply Permutation_in; [symmetry; exact HP | exact Hr].
  - split; [|exact E]. eapply Permutation_in; [exact HP | exact Hr].
Qed.

Lemma not_In_by_eqb (x : string) (l : list string) :
  existsb (String.eqb x) l = false -> ~ In x l.
Proof.
  intros H Hin. apply existsb_str_In in Hin. congruence.
Qed.

Example sample_lines : build_insights Sample.view = Ok Sample.lines.
Proof. vm_compute. reflexivity. Qed.

Example tie_goes_to_first_met :
  pd.idxmax (pd.value_counts [Some "b"; Some "a"; None; Some "a"; Some "b"]%string)
  = Ok "b"%string.
Proof. vm_compute. reflexivity. Qed.

(** * Rule 1: overall focus *)

(** C5, as stated, fails: for the three sample records the line the
    specification quotes is not among the lines produced (the script wraps
    the category in the Markdown markers), and on a non-empty view whose
    only row has no category block 1 produces no line at all. *)
Lemma focus_line_as_claimed_absent :
  build_insights Sample.view = Ok Sample.lines
  /\ ~ In (Claimed.focus_line "Process/Quality Metrics" 67) Sample.lines
  /\ In (focus_line "Process/Quality Metrics" 67) Sample.lines
  /\ overall_focus [Sample.uncategorised] [] = Ok [].
Proof.
  split; [vm_compute; reflexivity|].
  split; [apply not_In_by_eqb; vm_compute; reflexivity|].
  split; [now left | vm_compute; reflexivity].
Qed.

(** C5, amended.  For every view holding at least one category, block 1
    appends exactly the line "Focus is on **<category>** (<pct>% of topics)."
    where <category> has the highest number of occurrences among the
    categories of the view, the first one met in view order among those tied
    for it, and <pct> is 100 * count / number of rows rounded to the nearest
    integer (halves to the even one), a zero denominator giving 0; the line
    is the first one [build_insights] returns.  When every category of the
    view is missing the block appends nothing. *)
Theorem overall_focus_emits (view : list Row) :
  (categories view <> [] ->
   exists top,
     is_dominant (categories view) top
     /\ is_rounded (100 * Z.of_nat (occ (categories view) top)) (Py.len view)
                   (focus_pct view top)
     /\ (forall insights,
           overall_focus view insights
           = Ok (insights ++ [focus_line top (focus_pct view top)]))
     /\ (wins_categorised view ->
         exists rest,
           build_insights view = Ok (focus_line top (focus_pct view top) :: rest)))
  /\ (categories view = [] ->
      forall insights, overall_focus view insights = Ok insights)
  /\ (forall num, _safe_pct num 0 = 0).
Proof.
  split; [|split; [intros H insights; now apply overall_focus_none
                  | apply _safe_pct_zero]].
  intros Hne.
  destruct (overall_focus_some view Hne) as (top & Hdom & Hline).
  pose proof (categories_view_nonempty view Hne) as Hview.
  exists top. split; [exact Hdom|]. split; [|split; [exact Hline|]].
  - apply _safe_pct_rounded. now apply Py_len_pos.
  - intros Hw.
    destruct (build_insights_returns view Hview Hw)
      as (fl & pl & ul & wl & frl & Hout & Hfl & _).
    specialize (Hfl []). rewrite (Hline []) in Hfl. simpl in Hfl.
    injection Hfl as <-. rewrite Hout. simpl. eauto.
Qed.

Lemma overall_focus_emits_witness :
  categories Sample.view <> []
  /\ exists top,
       is_dominant (categories Sample.view) top
       /\ forall insights,
            overall_focus Sample.view insights
            = Ok (insights ++ [focus_line top (focus_pct Sample.view top)]).
Proof.
  assert (Hne : categories Sample.view <> []) by (vm_compute; discriminate).
  split; [exact Hne|].
  destruct (proj1 (overall_focus_emits Sample.view) Hne) as (top & Hdom & _ & Hline & _).
  exists top. split; [exact Hdom | exact Hline].
Defined.

(** * Rule 2: per-person snapshot *)

Example code_point_order :
  snapshot_persons
    [mkRow (mkRawRow (Some "alice") None "+" None "" None None "") NoDue;
     mkRow (mkRawRow None None "+" None "" None None "") NoDue;
     mkRow (mkRawRow (Some "Zed") None "-" None "" None None "") NoDue;
     mkRow (mkRawRow (Some "alice") None "-" None "" None None "") NoDue]%string
  = ["Zed"; "alice"]%string.
Proof. vm_compute. reflexivity. Qed.

(** C6, as stated, fails: for the three sample records Alice's line in the
    spelling the specification quotes is not among the lines produced; the
    script wraps the person, the category, the positive rate and the urgent
    count in the Markdown markers. *)
Lemma snapshot_line_as_claimed_absent :
  build_insights Sample.view = Ok Sample.lines
  /\ ~ In (Claimed.snapshot_line "Alice" "Process/Quality Metrics" 100 1 0 1 50 2)
          Sample.lines
  /\ In (snapshot_line "Alice" "Process/Quality Metrics" 100 1 0 1 50 2)
        Sample.lines.
Proof.
  split; [vm_compute; reflexivity|].
  split; [apply not_In_by_eqb; vm_compute; reflexivity|].
  right. now left.
Qed.

(** C6, amended.  Block 2 appends exactly one line per distinct person
    present in the view (missing persons left out), in strictly ascending
    order of Python's string comparison whatever the order of the rows, each
    of the form "**<person>**: mainly **<category>** (<pct>%). Sentiment →
    +:<pos>, ±:<mix>, -:<neg> (**<rate>% positive**). Urgent items:
    **<urgent>**." where category and pct are the dominant category of the
    person's rows and its rounded share of them ("N/A" and 0 when none of
    those rows has a category), pos, mix and neg count the person's rows by
    sentiment, rate is the rounded share of the positive ones and urgent
    counts the person's rows with status DueSoon or Overdue; these lines
    follow the lines of block 1 in what [build_insights] returns. *)
Theorem per_person_snapshots (view : list Row) :
  (forall p, In p (snapshot_persons view)
             <-> exists r : Row, In r view /\ person r = Some p)
  /\ StronglySorted (fun a b => String.ltb a b = true) (snapshot_persons view)
  /\ (forall view', Permutation view view' ->
                    snapshot_persons view' = snapshot_persons view)
  /\ (forall num den, 0 < den -> is_rounded (100 * num) den (_safe_pct num den))
  /\ exists lines,
       Forall2 (is_snapshot_of view) (snapshot_persons view) lines
       /\ (forall insights, per_person view insights = Ok (insights ++ lines))
       /\ (view <> [] -> wins_categorised view ->
           exists before after,
             build_insights view = Ok (before ++ lines ++ after)
             /\ forall insights, overall_focus view insights = Ok (insights ++ before)).
Proof.
  split; [intros p; apply snapshot_persons_In|].
  split; [apply snapshot_persons_strict|].
  split; [intros view'; apply snapshot_persons_perm|].
  split; [apply _safe_pct_rounded|].
  destruct (per_person_lines view) as (lines & HF & Hlines).
  exists lines. split; [exact HF|]. split; [exact Hlines|].
  intros Hne Hw.
  destruct (build_insights_returns view Hne Hw)
    as (fl & pl & ul & wl & frl & Hout & Hfl & Hpl & _).
  assert (E : pl = lines).
  { specialize (Hpl []). rewrite (Hlines []) in Hpl. simpl in Hpl.
    now injection Hpl. }
  subst pl. exists fl, (ul ++ wl ++ frl). split; [exact Hout | exact Hfl].
Qed.

Lemma per_person_snapshots_witness :
  Sample.view <> [] /\ wins_categorised Sample.view
  /\ exists lines,
       Forall2 (is_snapshot_of Sample.view) ["Alice"; "Bob"]%string lines
       /\ exists before after,
            build_insights Sample.view = Ok (before ++ lines ++ after).
Proof.
  assert (Hne : Sample.view <> []) by (vm_compute; discriminate).
  assert (Hw : wins_categorised Sample.view) by (right; vm_compute; discriminate).
  split; [exact Hne|]. split; [exact Hw|].
  destruct (per_person_snapshots Sample.view)
    as (_ & _ & _ & _ & lines & HF & _ & Hout).
  destruct (Hout Hne Hw) as (before & after & Hb & _).
  exists lines. split; [exact HF|]. exists before, after. exact Hb.
Defined.

(** * Rule 3: urgency signal *)

Lemma is_urgent_iff (r : Row) :
  is_urgent r = true <-> status_col r = DueSoon \/ status_col r = Overdue.
Proof.
  unfold is_urgent, has_status.
  rewrite orb_true_iff, !Status_eqb_eq. tauto.
Qed.

(** C7, as stated, fails: for the three sample records neither the urgency
    line nor the deadline line in the spelling the specification quotes is
    among the lines produced.  The script emphasises the overdue count,
    starts the second line with "Next deadlines → ", puts spaces around the
    dash and stars around the topic; and with two urgent rows the second
    line lists two records, not three. *)
Lemma urgency_lines_as_claimed_absent :
  build_insights Sample.view = Ok Sample.lines
  /\ ~ In (Claimed.urgency_line 2 1) Sample.lines
  /\ ~ In (Claimed.deadlines_line Sample.up_next) Sample.lines
  /\ urgency_signal Sample.view []
     = [urgency_line 2 1; deadlines_line Sample.up_next].
Proof.
  split; [vm_compute; reflexivity|].
  split; [apply not_In_by_eqb; vm_compute; reflexivity|].
  split; [apply not_In_by_eqb; vm_compute; reflexivity|].
  vm_compute. reflexivity.
Qed.

(** C7, amended.  When at least one row of the view has status DueSoon or
    Overdue, block 3 appends the line "Urgency: <n> items require attention
    (**<k> overdue**)." with n the number of those rows and k the number of
    Overdue ones among them, and then the line "Next deadlines → " followed
    by the labels "<due date> – <person>: *<topic>*", joined by " | ", of
    the first three (all of them when there are fewer) of those rows sorted
    ascending by due date, rows with equal due dates kept in view order; when
    no row has such a status the block appends nothing. *)
Theorem urgency_signal_lines (view : list Row) (insights : list string) :
  (filter is_urgent view = [] -> urgency_signal view insights = insights)
  /\ (filter is_urgent view <> [] ->
      exists sorted_due,
        is_stable_sort_by_due (filter is_urgent view) sorted_due
        /\ urgency_signal view insights
           = insights ++
             [urgency_line (Py.len (filter is_urgent view))
                (count_where (has_status Overdue) (filter is_urgent view));
              deadlines_line (firstn 3 sorted_due)])
  /\ (forall r : Row,
        is_urgent r = true <-> status_col r = DueSoon \/ status_col r = Overdue)
  /\ (view <> [] -> wins_categorised view ->
      exists before after,
        build_insights view = Ok (before ++ urgency_signal view [] ++ after)).
Proof.
  split; [apply urgency_signal_none|].
  split; [|split; [apply is_urgent_iff|]].
  - intros Hne.
    exists (pd.sort_values (fun r : Row => due_date r) (filter is_urgent view)).
    split; [apply sort_values_stable | now apply urgency_signal_some].
  - intros Hne Hw.
    destruct (build_insights_returns view Hne Hw)
      as (fl & pl & ul & wl & frl & Hout & _ & _ & Hul & _).
    exists (fl ++ pl), (wl ++ frl). rewrite Hout, (Hul []). simpl.
    now rewrite <- !app_assoc.
Qed.

Lemma urgency_signal_lines_witness :
  filter is_urgent Sample.view <> []
  /\ exists sorted_due,
       is_stable_sort_by_due (filter is_urgent Sample.view) sorted_due
       /\ urgency_signal Sample.view []
          = [urgency_line 2 1; deadlines_line (firstn 3 sorted_due)].
Proof.
  assert (Hne : filter is_urgent Sample.view <> []) by (vm_compute; discriminate).
  split; [exact Hne|].
  destruct (proj1 (proj2 (urgency_signal_lines Sample.view [])) Hne)
    as (sorted_due & Hs & E).
  exists sorted_due. split; [exact Hs | exact E].
Defined.

(** * Rule 4: wins and friction *)

Lemma is_friction_spelled (r : Row) :
  is_friction r = true
  <-> sentiment r <> "+"%string
      /\ (feature_category r = Some "Risk / Incident Management"%string
          \/ feature_category r = Some "Process / Quality Metrics"%string
          \/ feature_category r = Some "Projects / Execution"%string).
Proof.
  rewrite is_friction_iff. unfold friction_categories. split.
  - intros (Hs & c & Hc & E). split; [exact Hs|]. rewrite E.
    destruct Hc as [<-|[<-|[<-|[]]]]; auto.
  - intros (Hs & H). split; [exact Hs|].
    destruct H as [E|[E|E]]; eexists; (split; [|exact E]); simpl; auto.
Qed.

(** C8, as stated, fails: the sample view holds a Negative record of
    category "Process/Quality Metrics", a member of the friction set as the
    specification spells it, and yet no friction line is produced: the
    script's set spells the three categories with spaces around the slash.
    The wins line in the specification's spelling is not produced either;
    the script wraps the category in the Markdown markers. *)
Lemma wins_friction_as_claimed_absent :
  build_insights Sample.view = Ok Sample.lines
  /\ filter Claimed.is_friction Sample.view <> []
  /\ filter is_friction Sample.view = []
  /\ ~ In (Claimed.friction_line "Process/Quality Metrics") Sample.lines
  /\ ~ In (friction_line "Process/Quality Metrics") Sample.lines
  /\ ~ In (Claimed.wins_line "Process/Quality Metrics" 1) Sample.lines.
Proof.
  split; [vm_compute; reflexivity|].
  split; [vm_compute; discriminate|].
  split; [vm_compute; reflexivity|].
  repeat split; apply not_In_by_eqb; vm_compute; reflexivity.
Qed.

(** C8, amended.  On every view whose Positive rows, if any, carry at least
    one category, block 4 appends the line "Wins cluster in **<category>**
    (e.g., <min(3,|wins|)> recent positives)." if and only if the view has a
    Positive row, <category> being the dominant category of the Positive
    rows (first met among those tied); and then the line "Friction hotspots:
    **<category>** (prioritize coaching/unblocking)." if and only if at least
    one row has a sentiment other than Positive and a category in the set
    {"Risk / Incident Management", "Process / Quality Metrics",
    "Projects / Execution"}, <category> being the dominant category of those
    rows; these are the last lines [build_insights] returns. *)
Theorem wins_vs_friction_emits (view : list Row) :
  wins_categorised view ->
  exists wl fl,
    wins_part view wl
    /\ friction_part view fl
    /\ (forall insights, wins_vs_friction view insights = Ok (insights ++ wl ++ fl))
    /\ (forall r : Row,
          is_friction r = true
          <-> sentiment r <> "+"%string
              /\ (feature_category r = Some "Risk / Incident Management"%string
                  \/ feature_category r = Some "Process / Quality Metrics"%string
                  \/ feature_category r = Some "Projects / Execution"%string))
    /\ (forall r : Row, has_sentiment "+" r = true <-> sentiment r = "+"%string)
    /\ (view <> [] ->
        exists before, build_insights view = Ok (before ++ wl ++ fl)).
Proof.
  intros Hw.
  destruct (wins_vs_friction_lines view Hw) as (wl & fl & HW & HF & Hlines).
  exists wl, fl.
  split; [exact HW|]. split; [exact HF|]. split; [exact Hlines|].
  split; [intros r; apply is_friction_spelled|].
  split; [intros r; apply String.eqb_eq|].
  intros Hne.
  destruct (build_insights_returns view Hne Hw)
    as (fl' & pl & ul & wl' & frl & Hout & _ & _ & _ & Hwf).
  assert (E : wl' ++ frl = wl ++ fl).
  { specialize (Hwf []). rewrite (Hlines []) in Hwf. simpl in Hwf.
    now injection Hwf. }
  exists (fl' ++ pl ++ ul). rewrite Hout, <- E.
  now rewrite <- !app_assoc.
Qed.

Lemma wins_vs_friction_emits_witness :
  wins_categorised Sample.win_and_incident
  /\ filter (has_sentiment "+") Sample.win_and_incident <> []
  /\ filter is_friction Sample.win_and_incident <> []
  /\ wins_vs_friction Sample.win_and_incident []
     = Ok [wins_line "Process/Quality Metrics" 1;
           friction_line "Risk / Incident Management"]
  /\ exists wl fl,
       wins_part Sample.win_and_incident wl
       /\ friction_part Sample.win_and_incident fl
       /\ wins_vs_friction Sample.win_and_incident [] = Ok (wl ++ fl).
Proof.
  assert (Hw : wins_categorised Sample.win_and_incident)
    by (right; vm_compute; discriminate).
  split; [exact Hw|].
  split; [vm_compute; discriminate|].
  split; [vm_compute; discriminate|].
  split; [vm_compute; reflexivity|].
  destruct (wins_vs_friction_emits _ Hw) as (wl & fl & HW & HF & Hlines & _).
  exists wl, fl. split; [exact HW|]. split; [exact HF|]. exact (Hlines []).
Defined.

Example friction_line_emitted :
  wins_vs_friction [Sample.incident; Sample.uncategorised] []
  = Ok [friction_line "Risk / Incident Management"].
Proof. vm_compute. reflexivity. Qed.

Example wins_without_category_raise :
  build_insights [Sample.win_uncategorised] = Raise ValueError.
Proof. vm_compute. reflexivity. Qed.

(** * Lookup *)

Lemma has_topic_iff key (r : Row) : has_topic key r = true <-> topic r = Some key.
Proof. unfold has_topic. apply opt_eqb_eq. Qed.

Lemma first_match_filter (p : Row -> bool) view r :
  is_first_match p view r -> exists rest, filter p view = r :: rest.
Proof.
  intros (before & after & -> & Hp & Hb).
  rewrite filter_app. simpl. rewrite Hp.
  assert (E : filter p before = []) by now apply filter_none.
  rewrite E. simpl. eauto.
Qed.

(** C9.  Looking a topic up in a view returns the first row, in view order,
    whose topic is the key, whatever the number of rows sharing that topic;
    it raises (IndexError, the specification's NotFound) exactly when no row
    of the view has the key as topic. *)
Theorem sel_row_first_match (view : list Row) (key : string) :
  (forall r, sel_row view key = Ok r <-> is_first_match (has_topic key) view r)
  /\ (sel_row view key = Raise IndexError
      <-> forall r, In r view -> topic r <> Some key)
  /\ (forall e, sel_row view key = Raise e -> e = IndexError).
Proof.
  unfold sel_row. rewrite sub_topic.
  destruct (filter (has_topic key) view) as [|r0 rest] eqn:E; simpl.
  - split; [|split].
    + intros r. split; [discriminate|].
      intros H. apply first_match_filter in H. destruct H as (rest & H). congruence.
    + split; [|reflexivity]. intros _ r Hr Ht.
      apply has_topic_iff in Ht.
      pose proof (proj1 (filter_none _ _) E r Hr). congruence.
    + intros e H. congruence.
  - split; [|split].
    + intros r. split.
      * intros H. injection H as <-. exact (filter_head_split _ _ _ _ E).
      * intros H. apply first_match_filter in H. destruct H as (rest' & H).
        congruence.
    + split; [discriminate|]. intros H. exfalso.
      assert (Hin : In r0 (filter (has_topic key) view)) by (rewrite E; now left).
      apply filter_In in Hin. destruct Hin as [Hin Ht].
      apply has_topic_iff in Ht. exact (H r0 Hin Ht).
    + intros e H. discriminate.
Qed.

(** * The evaluation instant *)

Lemma load_data_raw (w : World) : map raw (load_data w) = Raw_text_xlsx w.
Proof.
  unfold load_data. rewrite map_map. simpl. apply map_id.
Qed.

Lemma load_data_In (w : World) (r : Row) :
  In r (load_data w) -> status_col r = status (clock w) r.
Proof.
  unfold load_data. rewrite in_map_iff. intros (row & <- & _). reflexivity.
Qed.

Lemma df_filt_In df persons cats sents (r : Row) :
  In r (df_filt df persons cats sents) -> In r df.
Proof.
  rewrite df_filt_filter, filter_In. tauto.
Qed.

Lemma load_data_status (w : World) :
  map status_col (load_data w)
  = map (fun row => status_rule (due_date row) (clock w)) (Raw_text_xlsx w).
Proof.
  unfold load_data. rewrite map_map. apply map_ext.
  intros row. simpl. apply status_rule_correct.
Qed.



(** * Further properties: shared facts *)

Lemma build_insights_empty_guard :
  build_insights [] = Ok ["No data under current filters."%string].
Proof. unfold build_insights. simpl pd.empty. cbv iota. reflexivity. Qed.

(** * Further properties: status windows *)

Lemma status_cases (today : pd.Timestamp) (row : RawRow) :
  match due_date row with
  | None => status today row = NoDue
  | Some d =>
      (d < today /\ status today row = Overdue)
      \/ ((today <= d /\ d < today + eight_days) /\ status today row = DueSoon)
      \/ (today + eight_days <= d /\ status today row = OnTrack)
  end.
Proof.
  unfold status. destruct (due_date row) as [d|]; [|reflexivity].
  destruct (Z.ltb_spec d today) as [Hlt|Hge]; [now left|].
  right. destruct (pd.days (d - today) <=? 7) eqn:E.
  - left. apply days_le_7 in E. split; [lia | reflexivity].
  - right. split; [|reflexivity].
    apply Z.nlt_ge. intros Hlt.
    assert (H : (pd.days (d - today) <=? 7) = true) by (apply days_le_7; lia).
    congruence.
Qed.

(** X1.  A row without due date is No Due, and no other is.  With a due
    date [d], the row is Overdue exactly when [d] lies before the instant,
    Due Soon exactly when [d] lies in the eight days that start at the
    instant (the instant included, the end excluded), and On Track exactly
    when [d] lies eight days or more after it. *)
Theorem status_windows (today : pd.Timestamp) (row : RawRow) :
  (status today row = NoDue <-> due_date row = None)
  /\ (forall d, due_date row = Some d ->
        (status today row = Overdue <-> d < today)
        /\ (status today row = DueSoon <-> (today <= d /\ d < today + eight_days))
        /\ (status today row = OnTrack <-> today + eight_days <= d)).
Proof.
  pose proof (status_cases today row) as H.
  pose proof eight_days_pos as Hpos. split.
  - destruct (due_date row) as [d|].
    + split; [|discriminate]. intros E.
      destruct H as [[_ H]|[[_ H]|[_ H]]]; congruence.
    + split; auto.
  - intros d E. rewrite E in H.
    destruct H as [[Hd H]|[[Hd H]|[Hd H]]]; rewrite H;
      repeat split; intros; try discriminate; try reflexivity;
      try lia; exfalso; lia.
Qed.

(** X2.  As the instant advances a row only moves towards Overdue: a row
    that is Overdue stays Overdue, a row that is On Track at the later
    instant was On Track before, and a row is No Due at one instant exactly
    when it is at the other. *)
Theorem status_advances (today later : pd.Timestamp) (row : RawRow) :
  today <= later ->
  (status today row = Overdue -> status later row = Overdue)
  /\ (status later row = OnTrack -> status today row = OnTrack)
  /\ (status today row = NoDue <-> status later row = NoDue).
Proof.
  intros Hle.
  pose proof (status_cases today row) as H1.
  pose proof (status_cases later row) as H2.
  pose proof eight_days_pos as Hpos.
  destruct (due_date row) as [d|].
  - destruct H1 as [[Hd1 E1]|[[Hd1 E1]|[Hd1 E1]]];
      destruct H2 as [[Hd2 E2]|[[Hd2 E2]|[Hd2 E2]]];
      rewrite E1, E2; repeat split; intros; try discriminate;
      try reflexivity; exfalso; lia.
  - rewrite H1, H2. repeat split; intros; try discriminate; reflexivity.
Qed.

Lemma status_advances_witness :
  Sample.now <= Sample.now + 10 * Sample.day
  /\ (status Sample.now Sample.alice_late = Overdue ->
      status (Sample.now + 10 * Sample.day) Sample.alice_late = Overdue).
Proof.
  assert (H : Sample.now <= Sample.now + 10 * Sample.day)
    by (vm_compute; discriminate).
  split; [exact H|].
  exact (proj1 (status_advances Sample.now (Sample.now + 10 * Sample.day)
                                Sample.alice_late H)).
Defined.

(** * Further properties: what [load_data] hands to the page *)

Lemma loaded_urgent_has_due (today : pd.Timestamp) (r : Row) :
  status_col r = status today r -> is_urgent r = true ->
  exists d, due_date r = Some d.
Proof.
  intros Hs Hu. apply is_urgent_iff in Hu.
  pose proof (status_cases today r) as H.
  destruct (due_date r) as [d|]; [eauto|].
  rewrite <- Hs in H. destruct Hu; congruence.
Qed.

(** X3.  [load_data] returns the rows of the sheet, all of them and in
    order, each with its status; and whatever the sidebar selections, every
    row of the filtered view comes from the sheet and still carries the
    status of its own due date at the load instant.  Hence a row that counts
    as urgent always has a due date. *)
Theorem loaded_view_invariant (w : World)
    (persons cats : list (option string)) (sents : list string) :
  map raw (load_data w) = Raw_text_xlsx w
  /\ forall r : Row,
       In r (df_filt (load_data w) persons cats sents) ->
       In (raw r) (Raw_text_xlsx w)
       /\ status_col r = status (clock w) r
       /\ (is_urgent r = true -> exists d, due_date r = Some d).
Proof.
  split; [apply load_data_raw|].
  intros r Hr. apply df_filt_In in Hr.
  pose proof (load_data_In w r Hr) as Hs.
  split; [|split; [exact Hs | now apply loaded_urgent_has_due with (clock w)]].
  rewrite <- load_data_raw. now apply in_map.
Qed.

(** * Further properties: upcoming deadlines *)

Lemma days_nonneg_iff delta : (0 <=? pd.days delta) = true <-> 0 <= delta.
Proof.
  rewrite Z.leb_le. split; [|apply days_nonneg].
  intros H. apply Z.nlt_ge. intros Hneg.
  assert (pd.days delta < 0).
  { unfold pd.days, pd.ns_per_day. apply Z.div_lt_upper_bound; lia. }
  lia.
Qed.

Lemma in_next7_window_iff (today : pd.Timestamp) (r : Row) :
  in_next7_window today r = true
  <-> exists d, due_date r = Some d /\ today <= d /\ d < today + eight_days.
Proof.
  unfold in_next7_window. destruct (due_date r) as [t|].
  - rewrite andb_true_iff, days_nonneg_iff, days_le_7. split.
    + intros [H1 H2]. exists t. repeat split; lia.
    + intros (d & E & H1 & H2). injection E as <-. lia.
  - split; [discriminate | intros (d & E & _); discriminate].
Qed.

Lemma next7_filter (w : World) (view : list Row) :
  next7 w view
  = pd.sort_values (fun r : Row => due_date r)
                   (filter (in_next7_window (clock w)) view).
Proof.
  unfold next7, col, pd.col. rewrite !map_map, mask_and_map, loc_filter.
  f_equal. apply filter_ext. intros r. unfold in_next7_window.
  destruct (due_date r); reflexivity.
Qed.

Lemma sort_values_length (l : list Row) :
  List.length (pd.sort_values (fun r : Row => due_date r) l) = List.length l.
Proof.
  symmetry. apply Permutation_length. apply sort_by_perm.
Qed.

Lemma sort_values_nil (l : list Row) :
  pd.sort_values (fun r : Row => due_date r) l = [] <-> l = [].
Proof. apply sort_by_nil. Qed.

(** X4.  The upcoming-deadlines table holds exactly the rows of the view
    whose due date lies in the eight days that start at the instant read
    from the clock (rows without due date never qualify), sorted ascending
    by due date with ties in view order; the "No deadlines" message is shown
    exactly when no row qualifies. *)
Theorem next7_window (w : World) (view : list Row) :
  is_stable_sort_by_due (filter (in_next7_window (clock w)) view) (next7 w view)
  /\ (forall r : Row,
        In r (next7 w view)
        <-> In r view
            /\ exists d, due_date r = Some d
                         /\ clock w <= d /\ d < clock w + eight_days)
  /\ (upcoming_block w view = Message "No deadlines in the next 7 days."
      <-> forall r : Row, In r view -> in_next7_window (clock w) r = false).
Proof.
  rewrite next7_filter. split; [apply sort_values_stable|]. split.
  - intros r. unfold pd.sort_values.
    rewrite sort_by_In, filter_In, in_next7_window_iff. reflexivity.
  - unfold upcoming_block. rewrite next7_filter.
    destruct (pd.sort_values (fun r : Row => due_date r)
                (filter (in_next7_window (clock w)) view)) as [|x xs] eqn:E.
    + apply (proj1 (sort_values_nil _)) in E. simpl. rewrite <- filter_none.
      split; auto.
    + simpl. split; [discriminate|]. intros H.
      apply (proj2 (filter_none _ _)) in H.
      apply (proj2 (sort_values_nil _)) in H. congruence.
Qed.

Lemma next7_In (w : World) (view : list Row) (r : Row) :
  In r (next7 w view)
  <-> In r view
      /\ exists d, due_date r = Some d /\ clock w <= d /\ d < clock w + eight_days.
Proof.
  rewrite next7_filter. unfold pd.sort_values.
  rewrite sort_by_In, filter_In, in_next7_window_iff. reflexivity.
Qed.

(** X5.  [load_data] and the upcoming-deadlines block read the clock at
    different moments.  When the clock has not gone backwards in between, a
    row the block lists has status Due Soon or On Track in the status
    column, never Overdue or No Due, and a row with status Due Soon is
    listed unless its due date has passed by the time the block reads the
    clock. *)
Theorem next7_against_status (sheet : list RawRow)
    (t_load t_next7 : pd.Timestamp)
    (persons cats : list (option string)) (sents : list string) (r : Row) :
  t_load <= t_next7 ->
  In r (df_filt (load_data (mkWorld t_load sheet)) persons cats sents) ->
  (In r (next7 (mkWorld t_next7 sheet)
               (df_filt (load_data (mkWorld t_load sheet)) persons cats sents))
   -> status_col r = DueSoon \/ status_col r = OnTrack)
  /\ (status_col r = DueSoon ->
      (In r (next7 (mkWorld t_next7 sheet)
                   (df_filt (load_data (mkWorld t_load sheet)) persons cats sents))
       <-> exists d, due_date r = Some d /\ t_next7 <= d)).
Proof.
  intros Hle Hr.
  pose proof (load_data_In _ _ (df_filt_In _ _ _ _ _ Hr)) as Hs.
  simpl clock in Hs.
  pose proof (status_cases t_load r) as Hc.
  pose proof eight_days_pos as Hpos.
  rewrite next7_In. simpl clock. rewrite Hs. split.
  - intros (_ & d & Hd & H1 & H2). rewrite Hd in Hc.
    destruct Hc as [[Hlt _]|[[_ E]|[_ E]]]; [exfalso; lia | now left | now right].
  - intros E. split.
    + intros (_ & d & Hd & H1 & _). eauto.
    + intros (d & Hd & H1). split; [exact Hr|]. exists d.
      rewrite Hd in Hc.
      destruct Hc as [[_ E']|[[[A B] _]|[_ E']]]; [congruence | | congruence].
      repeat split; [exact Hd | exact H1 | lia].
Qed.

Lemma next7_against_status_witness :
  Sample.now <= Sample.now + Sample.day
  /\ In (mkRow Sample.alice_soon DueSoon)
        (next7 (mkWorld (Sample.now + Sample.day) (Raw_text_xlsx Sample.world))
               (df_filt (load_data (mkWorld Sample.now (Raw_text_xlsx Sample.world)))
                        [Some "Alice"%string]
                        [Some "Process/Quality Metrics"%string]
                        ["+"; "-"]%string)).
Proof.
  assert (Hle : Sample.now <= Sample.now + Sample.day)
    by (vm_compute; discriminate).
  split; [exact Hle|].
  assert (Hin : In (mkRow Sample.alice_soon DueSoon)
                   (df_filt (load_data (mkWorld Sample.now (Raw_text_xlsx Sample.world)))
                            [Some "Alice"%string]
                            [Some "Process/Quality Metrics"%string]
                            ["+"; "-"]%string))
    by (vm_compute; left; reflexivity).
  apply (proj2 (next7_against_status _ _ _ _ _ _ _ Hle Hin) eq_refl).
  eexists. split; [reflexivity | vm_compute; discriminate].
Defined.

(** * Further properties: the next deadlines of the urgency signal *)

Lemma key_le_rows_trans :
  Relations_1.Transitive
    (fun a b : Row => pd.key_le (due_date a) (due_date b) = true).
Proof. intros a b c. apply key_le_trans. Qed.

Lemma strongly_sorted_split {R : Type} (lt : R -> R -> Prop) (n : nat) (l : list R) :
  StronglySorted lt l ->
  forall a b, In a (firstn n l) -> In b (skipn n l) -> lt a b.
Proof.
  intros Hs. revert n. induction Hs as [|x l Hs IH Hall]; intros n a b Ha Hb.
  - destruct n; contradiction.
  - destruct n as [|n]; simpl in Ha, Hb; [contradiction|].
    destruct Ha as [<-|Ha].
    + rewrite Forall_forall in Hall. apply Hall.
      rewrite <- (firstn_skipn n l). apply in_or_app. now right.
    + now apply (IH n).
Qed.

(** X6.  The deadline line lists the first three urgent rows in due-date
    order (all of them when there are fewer): none of the urgent rows it
    leaves out is due earlier than a row it lists. *)
Theorem next_deadlines_earliest (view : list Row) (insights : list string) :
  exists up_next rest,
    Permutation (filter is_urgent view) (up_next ++ rest)
    /\ List.length up_next = Nat.min 3 (List.length (filter is_urgent view))
    /\ (forall a b : Row,
          In a up_next -> In b rest ->
          pd.key_le (due_date a) (due_date b) = true)
    /\ (filter is_urgent view <> [] ->
        exists first_line,
          urgency_signal view insights
          = insights ++ [first_line; deadlines_line up_next]).
Proof.
  destruct (sort_values_stable (filter is_urgent view)) as (Hperm & Hsorted & _).
  set (sorted := pd.sort_values (fun r : Row => due_date r)
                                (filter is_urgent view)) in *.
  exists (firstn 3 sorted), (skipn 3 sorted).
  split; [now rewrite firstn_skipn|]. split; [|split].
  - rewrite length_firstn. unfold sorted. now rewrite sort_values_length.
  - apply strongly_sorted_split.
    apply Sorted_StronglySorted; [apply key_le_rows_trans | exact Hsorted].
  - intros Hne. eexists. now apply urgency_signal_some.
Qed.

(** * Further properties: action tracker, cards and urgency line agree *)

Lemma df_due_filter view : df_due view = filter is_urgent view.
Proof. apply sub_urgent. Qed.

Lemma count_urgent_split (view : list Row) :
  count_where is_urgent view
  = count_where (has_status DueSoon) view + count_where (has_status Overdue) view.
Proof.
  induction view as [|r view IH]; [reflexivity|].
  rewrite !count_where_cons, IH.
  assert (E : is_urgent r = has_status DueSoon r || has_status Overdue r)
    by reflexivity.
  rewrite E.
  destruct (has_status DueSoon r) eqn:E1, (has_status Overdue r) eqn:E2;
    simpl orb; cbv iota; try lia.
  apply Status_eqb_eq in E1, E2. congruence.
Qed.

Lemma filter_filter_sub {R : Type} (p q : R -> bool) (l : list R) :
  (forall x, p x = true -> q x = true) ->
  filter p (filter q l) = filter p l.
Proof.
  intros Hpq. induction l as [|x l IH]; [reflexivity|].
  simpl. destruct (q x) eqn:Eq; simpl; rewrite IH; [reflexivity|].
  destruct (p x) eqn:Ep; [|reflexivity].
  specialize (Hpq x Ep). congruence.
Qed.

Lemma overdue_is_urgent (r : Row) :
  has_status Overdue r = true -> is_urgent r = true.
Proof. unfold is_urgent. intros ->. apply orb_true_r. Qed.

Lemma count_overdue_among_urgent (view : list Row) :
  count_where (has_status Overdue) (filter is_urgent view)
  = count_where (has_status Overdue) view.
Proof.
  unfold count_where. now rewrite (filter_filter_sub _ _ _ overdue_is_urgent).
Qed.

Lemma len_filter {R : Type} (p : R -> bool) (l : list R) :
  Py.len (filter p l) = count_where p l.
Proof. reflexivity. Qed.

(** X7.  The action tracker has as many rows as the "Due Soon" and
    "Overdue" cards add up to, its "all on track" message is shown exactly
    when both cards are zero, and when it has rows the urgency line of the
    insights reports those same two numbers. *)
Theorem tracker_matches_cards (view : list Row) :
  Py.len (df_due view) = due_soon (kpi_cards view) + overdue (kpi_cards view)
  /\ (action_tracker view
        = Message "✅ No upcoming or overdue actions — all items on track!"
      <-> due_soon (kpi_cards view) + overdue (kpi_cards view) = 0)
  /\ (df_due view <> [] ->
      forall insights,
        urgency_signal view insights
        = insights ++
          [urgency_line (due_soon (kpi_cards view) + overdue (kpi_cards view))
                        (overdue (kpi_cards view));
           deadlines_line
             (firstn 3 (pd.sort_values (fun r : Row => due_date r) (df_due view)))]).
Proof.
  rewrite kpi_cards_fields. simpl.
  assert (Hlen : Py.len (df_due view)
                 = count_where (has_status DueSoon) view
                   + count_where (has_status Overdue) view).
  { rewrite df_due_filter, <- count_urgent_split. reflexivity. }
  split; [exact Hlen|]. split.
  - rewrite <- Hlen. unfold action_tracker.
    destruct (df_due view) as [|r rest]; simpl.
    + split; reflexivity.
    + split; [discriminate|]. unfold Py.len. simpl List.length. lia.
  - intros Hne insights. rewrite df_due_filter in *.
    rewrite urgency_signal_some by exact Hne.
    now rewrite count_overdue_among_urgent, len_filter, count_urgent_split.
Qed.

(** X8.  [highlight_status] leaves a status label without colour exactly
    when the label is neither "Overdue" nor "Due Soon"; every row of the
    action tracker is therefore coloured, red when Overdue and yellow when
    Due Soon. *)
Theorem tracker_rows_coloured (view : list Row) :
  (forall s : Status,
     highlight_status (Status_str s) = ""%string <-> s <> Overdue /\ s <> DueSoon)
  /\ (forall r : Row,
        In r (df_due view) ->
        (status_col r = Overdue
         /\ highlight_status (Status_str (status_col r))
            = "background-color: #f8d7da"%string)
        \/ (status_col r = DueSoon
            /\ highlight_status (Status_str (status_col r))
               = "background-color: #fff3cd"%string)).
Proof.
  split.
  - intros s. destruct s; vm_compute; split;
      try discriminate; try (intros [H1 H2]; congruence);
      intros _; split; discriminate.
  - intros r Hr. rewrite df_due_filter in Hr. apply filter_In in Hr.
    destruct Hr as [_ Hu]. apply is_urgent_iff in Hu.
    destruct Hu as [E|E]; rewrite E; [right | left]; split; reflexivity.
Qed.

(** * Further properties: the risk table *)

Lemma mask_or_map {R : Type} (p q : R -> bool) (df : list R) :
  pd.mask_or (map p df) (map q df) = map (fun r => p r || q r) df.
Proof.
  induction df as [|r df IH]; simpl; [reflexivity | now rewrite IH].
Qed.

Lemma risk_filter (view : list Row) :
  risk view = map risk_columns (filter is_risk view).
Proof.
  unfold risk. rewrite isin_col, isin_urgent, mask_or_map, loc_filter.
  reflexivity.
Qed.

Lemma is_risk_iff (r : Row) :
  is_risk r = true
  <-> sentiment r = "±"%string \/ sentiment r = "-"%string
      \/ status_col r = DueSoon \/ status_col r = Overdue.
Proof.
  unfold is_risk. rewrite orb_true_iff, existsb_str_In, is_urgent_iff.
  simpl. intuition congruence.
Qed.

Lemma risk_le_iff (a b : RiskRow) : risk_le a b = true <-> risk_before a b.
Proof.
  unfold risk_le, risk_before.
  destruct (risk_status a), (risk_status b); simpl;
    (split;
     [ intros H; first [ right; split; [reflexivity | exact H]
                       | left; lia
                       | discriminate H ]
     | intros [H|[H1 H2]]; first [ exact H2 | reflexivity | lia | discriminate H1 ] ]).
Qed.

Lemma risk_le_total (a b : RiskRow) : risk_le a b = true \/ risk_le b a = true.
Proof.
  rewrite !risk_le_iff. unfold risk_before.
  destruct (Z.lt_total (risk_rank (risk_status a)) (risk_rank (risk_status b)))
    as [H|[H|H]]; [now left; left | | now right; left].
  assert (E : risk_status a = risk_status b).
  { destruct (risk_status a), (risk_status b); simpl in H; congruence. }
  destruct (key_le_total (risk_due_date a) (risk_due_date b)).
  - left. right. now split.
  - right. right. now split.
Qed.

Lemma risk_before_trans : Relations_1.Transitive risk_before.
Proof.
  intros a b c [H1|[E1 K1]] [H2|[E2 K2]]; unfold risk_before.
  - left. lia.
  - left. rewrite <- E2. exact H1.
  - left. rewrite E1. exact H2.
  - right. split; [congruence | now apply key_le_trans with (risk_due_date b)].
Qed.

Lemma risk_table_sorted (l : list RiskRow) :
  StronglySorted risk_before (sort_by risk_le l).
Proof.
  apply Sorted_StronglySorted; [apply risk_before_trans|].
  assert (H : Sorted (fun a b => risk_le a b = true) (sort_by risk_le l))
    by (apply sort_by_sorted, risk_le_total).
  induction H as [|x xs Hs IH Hd]; constructor; [exact IH|].
  destruct Hd; constructor. now apply risk_le_iff.
Qed.

(** X9.  The risk expander keeps, reduced to six columns, exactly the rows
    whose sentiment is Mixed or Negative or whose status is Due Soon or
    Overdue, and shows its "No risk-flagged items" message exactly when
    there is none.  Its table is ordered by status with Overdue first, then
    On Track, then No Due, and Due Soon last (the labels in descending
    string order), and by ascending due date within one status, rows
    without due date at the end. *)
Theorem risk_table_order (view : list Row) :
  risk view = map risk_columns (filter is_risk view)
  /\ (forall r : Row,
        is_risk r = true
        <-> sentiment r = "±"%string \/ sentiment r = "-"%string
            \/ status_col r = DueSoon \/ status_col r = Overdue)
  /\ ((filter is_risk view = []
       /\ risk_block view = Message "No risk-flagged items under current filters.")
      \/ (filter is_risk view <> []
          /\ exists rows,
               risk_block view = Table rows
               /\ Permutation (risk view) rows
               /\ StronglySorted risk_before rows)).
Proof.
  split; [apply risk_filter|]. split; [apply is_risk_iff|].
  unfold risk_block. rewrite risk_filter.
  destruct (filter is_risk view) as [|r rest].
  - left. split; reflexivity.
  - right. split; [discriminate|]. eexists. split; [reflexivity|].
    split; [apply sort_by_perm | apply risk_table_sorted].
Qed.

(** X10.  Every row of the action tracker is also a row of the risk table. *)
Theorem tracker_rows_in_risk_table (view : list Row) (r : Row) :
  In r (df_due view) ->
  exists rows, risk_block view = Table rows /\ In (risk_columns r) rows.
Proof.
  rewrite df_due_filter, filter_In. intros [Hr Hu].
  assert (Hin : In (risk_columns r) (risk view)).
  { rewrite risk_filter. apply in_map. apply filter_In. split; [exact Hr|].
    unfold is_risk. rewrite Hu. apply orb_true_r. }
  unfold risk_block. destruct (risk view) as [|x xs] eqn:E; [contradiction|].
  simpl pd.empty. cbv iota. eexists. split; [reflexivity|].
  rewrite sort_by_In. exact Hin.
Qed.

Lemma tracker_rows_in_risk_table_witness :
  In (mkRow Sample.alice_late Overdue) (df_due Sample.view)
  /\ exists rows,
       risk_block Sample.view = Table rows
       /\ In (risk_columns (mkRow Sample.alice_late Overdue)) rows.
Proof.
  assert (H : In (mkRow Sample.alice_late Overdue) (df_due Sample.view))
    by (vm_compute; right; left; reflexivity).
  split; [exact H|].
  exact (tracker_rows_in_risk_table Sample.view _ H).
Defined.

(** * Further properties: the category chart *)

Lemma total_count_perm (l l' : list (string * Z)) :
  Permutation l l' -> total_count l = total_count l'.
Proof.
  induction 1 as [|x l l' _ IH|x y l|l l' l'' _ IH1 _ IH2]; simpl;
    [reflexivity | rewrite IH; reflexivity | lia | congruence].
Qed.

Lemma total_count_add (g h : string -> Z) (u : list string) :
  total_count (map (fun k => (k, g k + h k)) u)
  = total_count (map (fun k => (k, g k)) u) + total_count (map (fun k => (k, h k)) u).
Proof.
  induction u as [|k u IH]; simpl; [reflexivity | rewrite IH; lia].
Qed.

Lemma total_count_indicator (a : string) (u : list string) :
  NoDup u ->
  total_count (map (fun k => (k, if String.eqb a k then 1 else 0)) u)
  = if in_dec string_dec a u then 1 else 0.
Proof.
  induction 1 as [|k u Hk Hu IH]; [reflexivity|].
  simpl total_count. rewrite IH.
  destruct (String.eqb_spec a k) as [<-|Hne].
  - destruct (in_dec string_dec a u) as [Hin|_]; [contradiction|].
    destruct (in_dec string_dec a (a :: u)) as [_|Hn]; [reflexivity|].
    exfalso. apply Hn. now left.
  - destruct (in_dec string_dec a u) as [Hin|Hnin];
      destruct (in_dec string_dec a (k :: u)) as [Hin'|Hnin']; try reflexivity.
    + exfalso. apply Hnin'. now right.
    + exfalso. destruct Hin' as [E|Hin']; [now apply Hne | contradiction].
Qed.

Lemma total_count_occurrences (u l : list string) :
  NoDup u -> incl l u ->
  total_count (map (fun k => (k, pd.occurrences k l)) u) = Py.len l.
Proof.
  intros Hu. induction l as [|a l IH]; intros Hincl.
  - clear. induction u as [|k u IH]; simpl; [reflexivity | now rewrite IH].
  - assert (E : forall k, pd.occurrences k (a :: l)
                          = (if String.eqb a k then 1 else 0) + pd.occurrences k l)
      by reflexivity.
    rewrite (map_ext _ _ (fun k => f_equal (pair k) (E k))).
    rewrite (total_count_add (fun k => if String.eqb a k then 1 else 0)).
    rewrite total_count_indicator by exact Hu.
    rewrite IH by (intros x Hx; apply Hincl; now right).
    destruct (in_dec string_dec a u) as [_|Hn].
    + unfold Py.len. simpl List.length. lia.
    + exfalso. apply Hn, Hincl. now left.
Qed.

Lemma value_counts_In (s : list (option string)) (k : string) (n : Z) :
  In (k, n) (pd.value_counts s)
  <-> In k (pd.dropna s) /\ n = Z.of_nat (occ (pd.dropna s) k).
Proof.
  unfold pd.value_counts. rewrite sort_by_In, in_map_iff. split.
  - intros (k' & E & Hk). injection E as -> <-.
    apply (proj1 (unique_In String.eqb String.eqb_eq _ _)) in Hk.
    split; [exact Hk | apply occurrences_occ].
  - intros [Hk ->]. exists k. rewrite occurrences_occ. split; [reflexivity|].
    now apply (proj2 (unique_In String.eqb String.eqb_eq _ _)).
Qed.

Lemma value_counts_sorted (s : list (option string)) :
  StronglySorted (fun a b : string * Z => snd b <= snd a) (pd.value_counts s).
Proof.
  apply Sorted_StronglySorted; [intros a b c; lia|].
  unfold pd.value_counts.
  set (table := map _ _).
  assert (H : Sorted (fun a b : string * Z => (snd b <=? snd a) = true)
                     (sort_by (fun a b : string * Z => snd b <=? snd a) table)).
  { apply (sort_by_sorted (fun a b : string * Z => snd b <=? snd a)).
    intros a b. rewrite !Z.leb_le. lia. }
  induction H as [|x xs Hs IH Hd]; constructor; [exact IH|].
  destruct Hd; constructor. now apply Z.leb_le.
Qed.

Lemma value_counts_labels (s : list (option string)) :
  Permutation (map fst (pd.value_counts s)) (pd.unique String.eqb (pd.dropna s)).
Proof.
  unfold pd.value_counts.
  rewrite <- (sort_by_perm _ _). rewrite map_map. simpl. now rewrite map_id.
Qed.

(** X11.  The bar chart has one bar per distinct category of the view, rows
    without category left out; each bar's height is the number of rows of
    that category, the bars are in descending order of height, and the
    heights add up to the number of rows that have a category. *)
Theorem cat_counts_chart (view : list Row) :
  NoDup (map fst (cat_counts view))
  /\ (forall c n, In (c, n) (cat_counts view)
                  <-> In c (categories view)
                      /\ n = Z.of_nat (occ (categories view) c))
  /\ StronglySorted (fun a b : string * Z => snd b <= snd a) (cat_counts view)
  /\ total_count (cat_counts view) = Py.len (categories view).
Proof.
  unfold cat_counts. split; [|split; [|split]].
  - eapply Permutation_NoDup; [symmetry; apply value_counts_labels|].
    apply unique_NoDup, String.eqb_eq.
  - intros c n. apply value_counts_In.
  - apply value_counts_sorted.
  - unfold pd.value_counts. rewrite <- (total_count_perm _ _ (sort_by_perm _ _)).
    apply total_count_occurrences.
    + apply unique_NoDup, String.eqb_eq.
    + intros x Hx. now apply (proj2 (unique_In String.eqb String.eqb_eq _ _)).
Qed.

Lemma first_max_from_head (kv : string * Z) (t : list (string * Z)) :
  Forall (fun e => snd e <= snd kv) t -> pd.first_max_from kv t = kv.
Proof.
  induction 1 as [|e t He _ IH]; [reflexivity|].
  simpl. destruct (Z.ltb_spec (snd kv) (snd e)); [lia | exact IH].
Qed.

(** X12.  The category the focus line names is the first bar of the chart,
    and its percentage is that bar's height over the number of rows; when
    the chart has no bar, block 1 appends nothing. *)
Theorem first_bar_is_focus (view : list Row) :
  match cat_counts view with
  | [] => forall insights, overall_focus view insights = Ok insights
  | (top, n) :: _ =>
      forall insights,
        overall_focus view insights
        = Ok (insights ++ [focus_line top (_safe_pct n (Py.len view))])
  end.
Proof.
  pose proof (value_counts_sorted (col feature_category view)) as Hs.
  unfold cat_counts, overall_focus.
  destruct (pd.value_counts (col feature_category view)) as [|[top n] t].
  - reflexivity.
  - intros insights. simpl pd.empty. simpl negb. cbv iota.
    apply StronglySorted_inv in Hs. destruct Hs as [_ Hall].
    rewrite max_first_max. unfold pd.idxmax.
    rewrite (first_max_from_head (top, n) t Hall). reflexivity.
Qed.

(** * Further properties: percentages stay in range *)

Lemma is_rounded_bounds num den p :
  0 < den -> 0 <= num <= 100 * den -> is_rounded num den p -> 0 <= p <= 100.
Proof.
  intros Hden Hnum [Hr Heven].
  assert (Hlo : -1 < p) by nia.
  assert (Hhi : p < 101) by nia.
  lia.
Qed.

Lemma is_rounded_mono num num' den p p' :
  0 < den -> num <= num' ->
  is_rounded num den p -> is_rounded num' den p' -> p <= p'.
Proof.
  intros Hden Hle [Hr Heven] [Hr' Heven'].
  apply Z.nlt_ge. intros Hlt.
  assert (Hp : p = p' + 1) by nia.
  subst p.
  assert (Hn : num = num') by nia.
  subst num'.
  assert (H1 : 2 * Z.abs (num - (p' + 1) * den) = den) by nia.
  assert (H2 : 2 * Z.abs (num - p' * den) = den) by nia.
  specialize (Heven H1). specialize (Heven' H2).
  rewrite Z.add_1_r, Z.even_succ, <- Z.negb_even, Heven' in Heven.
  discriminate.
Qed.

(** X13.  For a count between 0 and the denominator, [_safe_pct] answers a
    whole percentage between 0 and 100, 0 for a zero count and 100 for the
    full count, and a larger count never gets a smaller percentage. *)
Theorem _safe_pct_range (num num' den : Z) :
  0 <= num -> num <= num' -> num' <= den ->
  0 <= _safe_pct num den <= 100
  /\ _safe_pct num den <= _safe_pct num' den
  /\ _safe_pct 0 den = 0
  /\ (0 < den -> _safe_pct den den = 100).
Proof.
  intros H0 Hle Hden.
  destruct (Z.eq_dec den 0) as [->|Hnz].
  - rewrite !_safe_pct_zero. repeat split; lia.
  - assert (Hpos : 0 < den) by lia.
    pose proof (_safe_pct_rounded num den Hpos) as R.
    pose proof (_safe_pct_rounded num' den Hpos) as R'.
    split; [apply (is_rounded_bounds (100 * num) den); [lia | lia | exact R]|].
    split; [apply (is_rounded_mono (100 * num) (100 * num') den); [lia | lia | exact R | exact R']|].
    split.
    + destruct (_safe_pct_rounded 0 den Hpos) as [H _].
      remember (_safe_pct 0 den) as p. clear Heqp. nia.
    + intros _. destruct (_safe_pct_rounded den den Hpos) as [H _].
      remember (_safe_pct den den) as p. clear Heqp. nia.
Qed.

Lemma _safe_pct_range_witness :
  0 <= _safe_pct 2 3 <= 100 /\ _safe_pct 2 3 <= _safe_pct 3 3.
Proof.
  destruct (_safe_pct_range 2 3 3) as (H1 & H2 & _); [lia | lia | lia |].
  split; [exact H1 | exact H2].
Defined.

(** * Further properties: when [build_insights] raises *)

Lemma overall_focus_append (view : list Row) :
  exists fl, forall insights, overall_focus view insights = Ok (insights ++ fl).
Proof.
  destruct (categories view) as [|c cs] eqn:Ec.
  - exists []. intros insights. rewrite app_nil_r. now apply overall_focus_none.
  - destruct (overall_focus_some view) as (top & _ & H).
    + rewrite Ec. discriminate.
    + eexists. exact H.
Qed.

Lemma wins_categorised_dec (view : list Row) :
  wins_categorised view
  \/ (filter (has_sentiment "+") view <> []
      /\ categories (filter (has_sentiment "+") view) = []).
Proof.
  unfold wins_categorised.
  destruct (filter (has_sentiment "+") view) as [|w ws] eqn:Ew; [now left; left|].
  destruct (categories (w :: ws)) as [|c cs] eqn:Ec.
  - right. split; [discriminate | reflexivity].
  - left. right. discriminate.
Qed.

Lemma build_insights_raises (view : list Row) :
  filter (has_sentiment "+") view <> [] ->
  categories (filter (has_sentiment "+") view) = [] ->
  build_insights view = Raise ValueError.
Proof.
  intros Hne Hnil.
  assert (Hview : view <> []) by (intros ->; now apply Hne).
  rewrite build_insights_blocks by exact Hview.
  destruct (overall_focus_append view) as (fl & Hfl).
  destruct (per_person_lines view) as (pl & _ & Hpl).
  rewrite Hfl. simpl bind. rewrite Hpl. simpl bind.
  now apply wins_vs_friction_raises.
Qed.

(** X14.  [build_insights] raises exactly when the view has Positive rows
    and none of them has a category; the exception is then the ValueError of
    the unguarded [idxmax] of block 4.  On every other view, the empty one
    included, it returns a list of lines. *)
Theorem build_insights_failure (view : list Row) :
  (forall e, build_insights view = Raise e
             <-> e = ValueError
                 /\ filter (has_sentiment "+") view <> []
                 /\ categories (filter (has_sentiment "+") view) = [])
  /\ ((exists out, build_insights view = Ok out) <-> wins_categorised view).
Proof.
  assert (Hok : wins_categorised view -> exists out, build_insights view = Ok out).
  { intros Hw. destruct view as [|r view].
    - eexists. reflexivity.
    - destruct (build_insights_returns (r :: view)) as (fl & pl & ul & wl & frl & H & _);
        [discriminate | exact Hw | eauto]. }
  split.
  - intros e. split.
    + intros He. destruct (wins_categorised_dec view) as [Hw|[Hne Hnil]].
      * destruct (Hok Hw) as (out & Hout). congruence.
      * rewrite (build_insights_raises view Hne Hnil) in He.
        injection He as <-. now repeat split.
    + intros (-> & Hne & Hnil). now apply build_insights_raises.
  - split; [|exact Hok].
    intros (out & Hout). destruct (wins_categorised_dec view) as [Hw|[Hne Hnil]];
      [exact Hw|].
    rewrite (build_insights_raises view Hne Hnil) in Hout. discriminate.
Qed.

(** * Further properties: the lines of a non-empty view *)

Lemma snapshot_lines_shape view persons lines :
  Forall2 (is_snapshot_of view) persons lines -> Forall is_insight_line lines.
Proof.
  induction 1 as [|p line ps ls Hp _ IH]; constructor; [|exact IH].
  destruct Hp as (c & n & _ & ->). right. left. repeat eexists.
Qed.

Lemma build_insights_shapes (view : list Row) (out : list string) :
  view <> [] -> build_insights view = Ok out -> Forall is_insight_line out.
Proof.
  intros Hne Hout.
  assert (Hw : wins_categorised view).
  { destruct (wins_categorised_dec view) as [Hw|[Hn Hnil]]; [exact Hw|].
    rewrite (build_insights_raises view Hn Hnil) in Hout. discriminate. }
  rewrite build_insights_blocks in Hout by exact Hne.
  (* block 1 *)
  assert (F : exists fl, Forall is_insight_line fl /\
              forall insights, overall_focus view insights = Ok (insights ++ fl)).
  { destruct (categories view) as [|c cs] eqn:Ec.
    - exists []. split; [constructor|]. intros insights. rewrite app_nil_r.
      now apply overall_focus_none.
    - destruct (overall_focus_some view) as (top & _ & H).
      + rewrite Ec. discriminate.
      + eexists. split; [|exact H].
        apply Forall_cons; [|apply Forall_nil]. left. repeat eexists. }
  destruct F as (fl & Sfl & Hfl).
  (* block 2 *)
  destruct (per_person_lines view) as (pl & HF & Hpl).
  apply snapshot_lines_shape in HF.
  (* block 3 *)
  assert (U : exists ul, Forall is_insight_line ul /\
              forall insights, urgency_signal view insights = insights ++ ul).
  { destruct (filter is_urgent view) as [|r rest] eqn:E.
    - exists []. split; [constructor|]. intros insights. rewrite app_nil_r.
      now apply urgency_signal_none.
    - eexists. split.
      2:{ intros insights. apply urgency_signal_some. rewrite E. discriminate. }
      apply Forall_cons; [|apply Forall_cons; [|apply Forall_nil]].
      + right. right. left. repeat eexists.
      + right. right. right. left. repeat eexists. }
  destruct U as (ul & Sul & Hul).
  (* block 4 *)
  destruct (wins_vs_friction_lines view Hw) as (wl & frl & HW & HFr & Hwf).
  assert (Swl : Forall is_insight_line wl).
  { destruct HW as [[_ ->]|[_ (top & _ & ->)]]; [apply Forall_nil|].
    apply Forall_cons; [|apply Forall_nil].
    do 4 right. left. repeat eexists. }
  assert (Sfrl : Forall is_insight_line frl).
  { destruct HFr as [[_ ->]|[_ (top & _ & ->)]]; [apply Forall_nil|].
    apply Forall_cons; [|apply Forall_nil].
    do 5 right. repeat eexists. }
  rewrite Hfl in Hout. simpl bind in Hout. rewrite Hpl in Hout.
  simpl bind in Hout. rewrite Hul, Hwf in Hout. injection Hout as <-.
  repeat (apply Forall_app; split); assumption.
Qed.

Lemma insight_line_not_no_data (line : string) :
  is_insight_line line -> line <> "No data under current filters."%string.
Proof.
  intros [(c & pct & ->)|[(p & c & pct & a & b & d & e & f & ->)
         |[(n & k & ->)|[(rows & ->)|[(c & n & ->)|(c & ->)]]]]];
    unfold focus_line, snapshot_line, urgency_line, deadlines_line, wins_line,
           friction_line; simpl; discriminate.
Qed.

(** X15.  On a non-empty view every line [build_insights] returns has one
    of the six formats of its four blocks; the line "No data under current
    filters." is never among them, so that line means the view is empty. *)
Theorem no_data_line_means_empty (view : list Row) (out : list string) :
  build_insights view = Ok out ->
  (view <> [] -> Forall is_insight_line out)
  /\ (In "No data under current filters."%string out <-> view = []).
Proof.
  intros Hout. split; [intros Hne; now apply build_insights_shapes with view|].
  split.
  - intros Hin. destruct view as [|r view]; [reflexivity|]. exfalso.
    assert (Hne : r :: view <> []) by discriminate.
    pose proof (build_insights_shapes _ _ Hne Hout) as Hs.
    rewrite Forall_forall in Hs.
    exact (insight_line_not_no_data _ (Hs _ Hin) eq_refl).
  - intros ->. rewrite build_insights_empty_guard in Hout.
    injection Hout as <-. now left.
Qed.

Lemma no_data_line_means_empty_witness :
  build_insights Sample.view = Ok Sample.lines
  /\ (In "No data under current filters."%string Sample.lines <-> Sample.view = []).
Proof.
  assert (H : build_insights Sample.view = Ok Sample.lines)
    by (vm_compute; reflexivity).
  split; [exact H|].
  exact (proj2 (no_data_line_means_empty Sample.view Sample.lines H)).
Defined.

(** * Further properties: filtering *)

Lemma filter_filter_and {R : Type} (p q : R -> bool) (l : list R) :
  filter p (filter q l) = filter (fun x => q x && p x) l.
Proof.
  induction l as [|x l IH]; [reflexivity|].
  simpl. destruct (q x); simpl; rewrite IH; reflexivity.
Qed.

Lemma selected_incl p1 c1 s1 p2 c2 s2 (r : Row) :
  incl p2 p1 -> incl c2 c1 -> incl s2 s1 ->
  selected p2 c2 s2 r = true -> selected p1 c1 s1 r = true.
Proof.
  intros Hp Hc Hs. rewrite !selected_iff. intros (H1 & H2 & H3).
  repeat split; [now apply Hp | now apply Hc | now apply Hs].
Qed.

(** X16.  Filtering a filtered view keeps the rows that pass both
    selections, whatever the order of the two filters; filtering twice with
    one selection changes nothing more; and a selection that only drops
    values from a wider one gives the same view whether it is applied to the
    dataset or to the wider view. *)
Theorem df_filt_compose (df : list Row)
    (p1 c1 p2 c2 : list (option string)) (s1 s2 : list string) :
  df_filt (df_filt df p1 c1 s1) p2 c2 s2
  = filter (fun r => selected p1 c1 s1 r && selected p2 c2 s2 r) df
  /\ df_filt (df_filt df p1 c1 s1) p2 c2 s2
     = df_filt (df_filt df p2 c2 s2) p1 c1 s1
  /\ df_filt (df_filt df p1 c1 s1) p1 c1 s1 = df_filt df p1 c1 s1
  /\ (incl p2 p1 -> incl c2 c1 -> incl s2 s1 ->
      df_filt (df_filt df p1 c1 s1) p2 c2 s2 = df_filt df p2 c2 s2).
Proof.
  rewrite !df_filt_filter, !filter_filter_and. split; [reflexivity|].
  split; [apply filter_ext; intros r; apply andb_comm|].
  split.
  - apply filter_ext. intros r. now destruct (selected p1 c1 s1 r).
  - intros Hp Hc Hs. apply filter_ext. intros r.
    destruct (selected p2 c2 s2 r) eqn:E2.
    + now rewrite (selected_incl p1 c1 s1 p2 c2 s2 r Hp Hc Hs E2).
    + apply andb_false_r.
Qed.

Lemma filter_nothing {R : Type} (p : R -> bool) (l : list R) :
  (forall r, p r = false) -> filter p l = [].
Proof. intros H. apply filter_none. intros r _. apply H. Qed.

(** X17.  Once one of the three multiselects is emptied the filtered view
    is empty: every card shows zero and the insights are the single line
    "No data under current filters.". *)
Theorem empty_selection_page (w : World)
    (persons cats : list (option string)) (sents : list string) :
  persons = [] \/ cats = [] \/ sents = [] ->
  df_filt (load_data w) persons cats sents = []
  /\ kpi_cards (df_filt (load_data w) persons cats sents) = mkKPI 0 0 0 0 0 0
  /\ page_insights w persons cats sents
     = Ok ["No data under current filters."%string].
Proof.
  intros H.
  assert (E : df_filt (load_data w) persons cats sents = []).
  { rewrite df_filt_filter. apply filter_nothing. intros r. unfold selected.
    destruct H as [-> | [-> | ->]]; simpl.
    - reflexivity.
    - now rewrite andb_false_r.
    - now rewrite andb_false_r. }
  unfold page_insights. rewrite E. repeat split.
Qed.

Lemma empty_selection_page_witness :
  page_insights Sample.world [] (feature_default Sample.view)
                (sent_default Sample.view)
  = Ok ["No data under current filters."%string].
Proof.
  apply (empty_selection_page Sample.world [] (feature_default Sample.view)
                              (sent_default Sample.view)).
  left. reflexivity.
Defined.

(** * Further properties: the cards *)

Lemma count_where_filter_le {R : Type} (p q : R -> bool) (l : list R) :
  count_where p (filter q l) <= count_where p l.
Proof.
  induction l as [|x l IH]; [reflexivity|].
  simpl filter. destruct (q x); rewrite !count_where_cons.
  - lia.
  - pose proof (count_where_cons p x l). destruct (p x); lia.
Qed.

Lemma len_filter_le {R : Type} (q : R -> bool) (l : list R) :
  Py.len (filter q l) <= Py.len l.
Proof. unfold Py.len. apply Nat2Z.inj_le, filter_length_le. Qed.

Lemma count_where_ge0 {R : Type} (p : R -> bool) (l : list R) :
  0 <= count_where p l.
Proof. unfold count_where. lia. Qed.

Lemma sentiment_counts_le (view : list Row) :
  count_where (has_sentiment "+") view + count_where (has_sentiment "±") view
  + count_where (has_sentiment "-") view <= Py.len view.
Proof.
  induction view as [|r view IH]; [reflexivity|].
  rewrite !count_where_cons. unfold Py.len in *. simpl List.length.
  rewrite Nat2Z.inj_succ.
  assert (Hs : forall s, has_sentiment s r = String.eqb (sentiment r) s)
    by reflexivity.
  rewrite !Hs.
  destruct (String.eqb_spec (sentiment r) "+") as [E1|_];
    destruct (String.eqb_spec (sentiment r) "±") as [E2|_];
    destruct (String.eqb_spec (sentiment r) "-") as [E3|_];
    try lia; exfalso; congruence.
Qed.

Lemma count_where_le {R : Type} (p : R -> bool) (l : list R) :
  count_where p l <= Py.len l.
Proof. unfold count_where, Py.len. apply Nat2Z.inj_le, filter_length_le. Qed.

(** X18.  Every card is a number between 0 and the "Total Topics" card; the
    three sentiment cards together never exceed the total, nor do the "Due
    Soon" and "Overdue" cards together; and no card of a filtered view
    exceeds the same card of the dataset. *)
Theorem kpi_cards_bounded (df : list Row)
    (persons cats : list (option string)) (sents : list string) :
  (0 <= pos (kpi_cards df) /\ 0 <= mix (kpi_cards df) /\ 0 <= neg (kpi_cards df)
   /\ 0 <= due_soon (kpi_cards df) /\ 0 <= overdue (kpi_cards df))
  /\ pos (kpi_cards df) + mix (kpi_cards df) + neg (kpi_cards df)
     <= total_topics (kpi_cards df)
  /\ due_soon (kpi_cards df) + overdue (kpi_cards df) <= total_topics (kpi_cards df)
  /\ (total_topics (kpi_cards (df_filt df persons cats sents))
        <= total_topics (kpi_cards df)
      /\ pos (kpi_cards (df_filt df persons cats sents)) <= pos (kpi_cards df)
      /\ mix (kpi_cards (df_filt df persons cats sents)) <= mix (kpi_cards df)
      /\ neg (kpi_cards (df_filt df persons cats sents)) <= neg (kpi_cards df)
      /\ due_soon (kpi_cards (df_filt df persons cats sents))
         <= due_soon (kpi_cards df)
      /\ overdue (kpi_cards (df_filt df persons cats sents))
         <= overdue (kpi_cards df)).
Proof.
  rewrite !kpi_cards_fields, df_filt_filter. simpl.
  split; [repeat split; apply count_where_ge0|].
  split; [apply sentiment_counts_le|].
  split.
  - rewrite <- count_urgent_split. apply count_where_le.
  - split; [apply len_filter_le | repeat split; apply count_where_filter_le].
Qed.

(** * Further properties: the conversation explorer *)

Lemma topic_options_In (view : list Row) (t : option string) :
  In t (topic_options view) <-> exists r : Row, In r view /\ topic r = t.
Proof.
  unfold topic_options, col, pd.col.
  rewrite (unique_In opt_eqb opt_eqb_eq), in_map_iff.
  split; intros (r & H1 & H2); exists r; tauto.
Qed.

Lemma explorer_nothing (view : list Row) :
  explorer view None = Raise IndexError
  /\ explorer view (Some None) = Raise IndexError.
Proof.
  assert (E : pd.loc view (map (fun _ : option string => false) (col topic view)) = []).
  { unfold col, pd.col. rewrite map_map, loc_filter.
    apply filter_none. reflexivity. }
  split; simpl; rewrite E; reflexivity.
Qed.

(** X19.  On its first run the explorer looks up the topic of the first
    row of the view.  It shows that row when the row has a topic; it raises
    IndexError when the row's topic is missing, and when the filters leave no
    row at all. *)
Theorem explorer_first_run (view : list Row) :
  explorer view (selectbox (topic_options view))
  = match view with
    | [] => Raise IndexError
    | r :: _ =>
        match topic r with
        | Some _ => Ok r
        | None => Raise IndexError
        end
    end.
Proof.
  destruct view as [|r view]; [reflexivity|].
  unfold topic_options, col, pd.col. simpl selectbox.
  destruct (topic r) as [t|] eqn:Et.
  - simpl explorer. unfold sel_row. rewrite sub_topic. simpl filter.
    unfold has_topic at 1. rewrite Et. simpl opt_eqb.
    now rewrite String.eqb_refl.
  - apply explorer_nothing.
Qed.

(** X20.  The selectbox offers the distinct topics of the view, each once,
    a missing topic included when some row has none.  The lookup succeeds
    exactly for the offered topics that are not missing, and the row it
    returns has the chosen topic and belongs to the view; choosing the
    missing topic raises IndexError. *)
Theorem explorer_offered_topics (view : list Row) :
  NoDup (topic_options view)
  /\ (forall t, In t (topic_options view)
                <-> exists r : Row, In r view /\ topic r = t)
  /\ (forall key,
        In (Some key) (topic_options view)
        <-> exists r, explorer view (Some (Some key)) = Ok r)
  /\ (forall key r,
        explorer view (Some (Some key)) = Ok r
        -> topic r = Some key /\ In r view)
  /\ explorer view (Some None) = Raise IndexError.
Proof.
  split; [apply unique_NoDup, opt_eqb_eq|].
  split; [apply topic_options_In|].
  assert (Hret : forall key r,
            explorer view (Some (Some key)) = Ok r
            -> topic r = Some key /\ In r view).
  { intros key r. simpl. unfold sel_row. rewrite sub_topic.
    destruct (filter (has_topic key) view) as [|x xs] eqn:E; [discriminate|].
    simpl. intros H. injection H as <-.
    assert (Hin : In x (filter (has_topic key) view)) by (rewrite E; now left).
    apply filter_In in Hin. destruct Hin as [Hin Ht].
    apply has_topic_iff in Ht. now split. }
  split; [|split; [exact Hret | apply explorer_nothing]].
  intros key. rewrite topic_options_In. split.
  - intros (r & Hr & Ht). simpl. unfold sel_row. rewrite sub_topic.
    destruct (filter (has_topic key) view) as [|x xs] eqn:E.
    + pose proof (proj1 (filter_none _ _) E r Hr) as Hf.
      apply has_topic_iff in Ht. congruence.
    + eexists. reflexivity.
  - intros (r & H). destruct (Hret key r H) as [Ht Hin]. eauto.
Qed.
